(** * config-file: the configuration facade and its JSON adapter

    A shallow embedding of [config_file/config_file.py] (class [ConfigFile])
    and [config_file/parsers/json_parser.py] (class [JsonParser]), with the
    properties of the specification stated over it.

    Python values are modelled by the inductive type [json] (what
    [json.loads] can return), dictionaries by insertion-ordered association
    lists, exceptions by the type [exn], and a call that may raise by the
    type [result]. Methods that read or write [self.parsed_content] or the
    file system pass that state explicitly. *)

From Stdlib Require Import ZArith String List Bool Ascii.
From Stdlib Require Import Floats.SpecFloat.
From Stdlib Require Import Decimal DecimalFacts DecimalN DecimalString.
From stdpp Require Import base strings list gmap.

Local Open Scope string_scope.
Local Open Scope list_scope.

(** ** Python values *)

(** The values [json.loads] produces: [None], [bool], [int], [float], [str],
    [list] and [dict] (a [dict] keeps its entries in insertion order). *)
#[local] Unset Elimination Schemes.
Inductive json : Type :=
| JNull
| JBool (b : bool)
| JInt (n : Z)
| JFloat (f : spec_float)
| JStr (s : string)
| JList (items : list json)
| JDict (entries : list (string * json)).
#[local] Set Elimination Schemes.

(** The objects that reach the facade through an [Any] parameter: plain data,
    an instance [Default(v)] of [config_file.utils.Default], and the object
    [type(Default)] the facade compares its [default] argument with. *)
Inductive pyobj : Type :=
| Plain (v : json)
| DefaultInstance (v : json)
| TypeOfDefault.

(** ** Exceptions and results *)

Inductive exn : Type :=
| JSONDecodeError (msg : string) (pos : nat)
| ParsingError (error : exn)
| KeyError (key : string)
| TypeError (msg : string)
| AttributeError (msg : string)
| FileNotFoundError (msg : string)
| SameFileError (msg : string)
| ValueError (msg : string)
| RecursionError (msg : string).

Inductive result (A : Type) : Type :=
| Ok (a : A)
| Raise (e : exn).

Arguments Ok {A} a.
Arguments Raise {A} e.

Definition bind {A B : Type} (r : result A) (k : A -> result B) : result B :=
  match r with
  | Ok a => k a
  | Raise e => Raise e
  end.

Declare Scope py_scope.
Delimit Scope py_scope with py.
Notation "x <- c1 ;; c2" := (bind c1 (fun x => c2))
  (at level 100, c1 at next level, right associativity) : py_scope.
Notation "c1 ;;; c2" := (bind c1 (fun _ => c2))
  (at level 100, right associativity) : py_scope.
Local Open Scope py_scope.

Definition raises {A : Type} (r : result A) : bool :=
  match r with
  | Ok _ => false
  | Raise _ => true
  end.

(** ** Dictionaries

    A Python [dict] with string keys: an association list in insertion
    order. The operations are the ones the sources use: [k in d], [d[k]],
    [d[k] = v] and [del d[k]]. *)
Module Dict.

Section Ops.
Context {V : Type}.

Definition t : Type := list (string * V).

(** [k in d] *)
Fixpoint contains (k : string) (d : list (string * V)) : bool :=
  match d with
  | [] => false
  | (k', _) :: rest => if String.eqb k k' then true else contains k rest
  end.

Fixpoint lookup (k : string) (d : list (string * V)) : option V :=
  match d with
  | [] => None
  | (k', v) :: rest => if String.eqb k k' then Some v else lookup k rest
  end.

(** [d[k]]: raises [KeyError] on an absent key. *)
Definition getitem (d : list (string * V)) (k : string) : result V :=
  match lookup k d with
  | Some v => Ok v
  | None => Raise (KeyError k)
  end.

(** [d[k] = v]: overwrites the entry in place, or appends a new one. *)
Fixpoint setitem (d : list (string * V)) (k : string) (v : V)
  : list (string * V) :=
  match d with
  | [] => [(k, v)]
  | (k', v') :: rest =>
      if String.eqb k k' then (k', v) :: rest
      else (k', v') :: setitem rest k v
  end.

Fixpoint remove (k : string) (d : list (string * V)) : list (string * V) :=
  match d with
  | [] => []
  | (k', v') :: rest =>
      if String.eqb k k' then rest else (k', v') :: remove k rest
  end.

(** [del d[k]]: raises [KeyError] on an absent key. *)
Definition delitem (d : list (string * V)) (k : string)
  : result (list (string * V)) :=
  if contains k d then Ok (remove k d) else Raise (KeyError k).

Definition keys (d : list (string * V)) : list string := map fst d.

(** A [dict] never holds a key twice. *)
Definition wf (d : list (string * V)) : Prop := NoDup (keys d).
End Ops.

End Dict.

(** ** Python's [json] module

    [json.loads] and [json.dumps] belong to the Python standard library, not
    to this repository; the adapter is stated over any implementation of
    them. On a [str], [json.loads] returns an object or raises
    [json.decoder.JSONDecodeError]; it can also fail outside the grammar,
    with [ValueError] on an integer literal longer than the interpreter
    converts and with [RecursionError] on nesting deeper than it follows. *)
Inductive library_error : Type :=
| IntegerTooLong (msg : string)
| NestingTooDeep (msg : string).

Definition raised (e : library_error) : exn :=
  match e with
  | IntegerTooLong msg => ValueError msg
  | NestingTooDeep msg => RecursionError msg
  end.

Inductive loads_result : Type :=
| Loaded (obj : json)
| DecodeError (msg : string) (pos : nat)
| OtherError (e : library_error).

Class JsonModule : Type := {
  json_loads : string -> loads_result;
  json_dumps : json -> string
}.

(** ** The JSON adapter: [JsonParser] *)

Module JsonParser.

(** The adapter's only state is the attribute [parsed_content]. *)
Record t : Type := Build { parsed_content : json }.

(** [JsonParser.get]: the body is [pass]; the call returns [None]. *)
Definition get (self : t) (section_key : string) (parse_type : bool)
  : result pyobj * t :=
  (Ok (Plain JNull), self).

(** [JsonParser.set]: the body is [pass]. *)
Definition set (self : t) (section_key : string) (value : json)
  : result unit * t :=
  (Ok tt, self).

(** [JsonParser.delete]: the body is [pass]. *)
Definition delete (self : t) (section_key : string) : result unit * t :=
  (Ok tt, self).

(** [JsonParser._search]: the loop over [data.items()]. A value that is not
    a [dict] has no [items] attribute. The result of the recursive call in
    the last branch is dropped by the source; the loop goes on. *)
Fixpoint _search (data : json) (search_item : string) : result bool :=
  match data with
  | JDict entries =>
      (fix loop (items : list (string * json)) : result bool :=
         match items with
         | [] => Ok false
         | (key, value) :: rest =>
             if Dict.contains search_item entries then Ok true
             else
               match value with
               | JDict inner =>
                   if Dict.contains search_item inner then Ok true
                   else (_search value search_item ;;; loop rest)
               | _ => loop rest
               end
         end) entries
  | _ => Raise (AttributeError "object has no attribute 'items'")
  end.

(** [JsonParser.has(self, search_key)] *)
Definition has (self : t) (search_key : string) : result bool :=
  _search (parsed_content self) search_key.

Section WithJson.
Context {J : JsonModule}.

(** [JsonParser.parse]: [json.loads] inside [try], a [JSONDecodeError]
    re-raised as [ParsingError(error)]; the [except] clause names that
    class only, so any other exception leaves [parse] as it is. *)
Definition parse (file_contents : string) : result json :=
  match json_loads file_contents with
  | Loaded obj => Ok obj
  | DecodeError msg pos => Raise (ParsingError (JSONDecodeError msg pos))
  | OtherError e => Raise (raised e)
  end.

(** [JsonParser.stringify] *)
Definition stringify (self : t) : string :=
  json_dumps (parsed_content self).

(** Modelled from the spec: [BaseParser.__init__], which
    [JsonParser.__init__] calls through [super()], is not among the
    sources; the parsed tree is created by a load of the file contents. *)
Definition init (file_contents : string) : result t :=
  tree <- parse file_contents ;; Ok (Build tree).

(** Modelled from the spec: [BaseParser.reset_internal_contents] is not
    among the sources; it replaces the tree wholesale by re-running
    [parse]. *)
Definition reset_internal_contents (self : t)
           (file_contents : string) : result unit * t :=
  match parse file_contents with
  | Ok tree => (Ok tt, Build tree)
  | Raise e => (Raise e, self)
  end.
End WithJson.

(** A caller's use of the three key-path methods, one call after another. *)
Inductive call : Type :=
| CallGet (section_key : string) (parse_type : bool)
| CallSet (section_key : string) (value : json)
| CallDelete (section_key : string).

Definition perform (self : t) (c : call) : t :=
  match c with
  | CallGet section_key parse_type => snd (get self section_key parse_type)
  | CallSet section_key value => snd (set self section_key value)
  | CallDelete section_key => snd (delete self section_key)
  end.

Definition perform_all (self : t) (calls : list call) : t :=
  fold_left perform calls self.

End JsonParser.

(** ** The adapter interface the facade calls

    [ConfigFile] holds a parser object and calls its methods; the methods are
    those of the abstract [BaseParser]. [adapter_has] receives the positional
    key and the keyword arguments of the call, since the facade passes
    [wild] by keyword. *)
Class Adapter (P : Type) : Type := {
  adapter_parsed_content : P -> json;
  adapter_store_parsed_content : P -> json -> P;
  adapter_get : P -> string -> result pyobj * P;
  adapter_set : P -> string -> json -> result unit * P;
  adapter_delete : P -> string -> result unit * P;
  adapter_stringify : P -> string;
  adapter_has : P -> string -> list (string * pyobj) -> result bool;
  adapter_reset_internal_contents : P -> string -> result unit * P
}.

(** A call [parser.has(key, **kwargs)] on a [JsonParser]: the method is
    declared [has(self, search_key)], so binding any keyword argument next to
    the positional key raises [TypeError] before the body runs. *)
Definition JsonParser_has_call (self : JsonParser.t) (search_key : string)
           (kwargs : list (string * pyobj)) : result bool :=
  match kwargs with
  | [] => JsonParser.has self search_key
  | (name, _) :: _ =>
      if String.eqb name "search_key"
      then Raise (TypeError "has() got multiple values for argument 'search_key'")
      else Raise (TypeError "has() got an unexpected keyword argument")
  end.

#[export] Instance JsonParser_adapter {J : JsonModule} : Adapter JsonParser.t := {
  adapter_parsed_content := JsonParser.parsed_content;
  adapter_store_parsed_content := fun _ tree => JsonParser.Build tree;
  (* [get(self, section_key, parse_type=True)] called with one argument *)
  adapter_get := fun self key => JsonParser.get self key true;
  adapter_set := JsonParser.set;
  adapter_delete := JsonParser.delete;
  adapter_stringify := JsonParser.stringify;
  adapter_has := JsonParser_has_call;
  adapter_reset_internal_contents := JsonParser.reset_internal_contents
}.

(** ** The file system and [ConfigFilePath] *)

(** Regular files by path; a file's contents are text. *)
Abbreviation filesystem := (gmap string string).

Module ConfigFilePath.

(** Modelled from the spec: [ConfigFilePath.exists] is not among the
    sources; the file at the path is present or absent. *)
Definition exists_ (p : string) (fs : filesystem) : bool :=
  match fs !! p with
  | Some _ => true
  | None => false
  end.

(** Splits a path at its last dot: [("config", ".json")]. *)
Fixpoint split_ext (p : string) : option (string * string) :=
  match p with
  | EmptyString => None
  | String c rest =>
      match split_ext rest with
      | Some (stem, ext) => Some (String c stem, ext)
      | None =>
          if Ascii.eqb c "."%char then Some (EmptyString, p) else None
      end
  end.

(** Modelled from the spec: [ConfigFilePath.original_path] is not among the
    sources; the original of [name.ext] is the sibling
    [name.original.ext]. *)
Definition original_path (p : string) : string :=
  match split_ext p with
  | Some (stem, ext) => String.append stem (String.append ".original" ext)
  | None => String.append p ".original"
  end.

(** Modelled from the spec: [ConfigFilePath.validate] is not among the
    sources; it returns the path, and fails with [FileNotFoundError] when
    no file is there. *)
Definition validate (p : string) (fs : filesystem) : result string :=
  if exists_ p fs then Ok p else Raise (FileNotFoundError p).

(** Modelled from the spec: [ConfigFilePath.unlink] is not among the
    sources; it removes the file, and the removal fails when there is
    none. *)
Definition unlink (p : string) (fs : filesystem) : result filesystem :=
  if exists_ p fs then Ok (delete p fs) else Raise (FileNotFoundError p).

(** Modelled from the spec: [ConfigFilePath.contents] is not among the
    sources; it is the text of the file at the path. *)
Definition contents (p : string) (fs : filesystem) : result string :=
  match fs !! p with
  | Some text => Ok text
  | None => Raise (FileNotFoundError p)
  end.

End ConfigFilePath.

(** [shutil.copyfile(src, dst)] of Python's library: it refuses a copy of a
    file onto itself, and writes the text of [src] at [dst]. *)
Definition copyfile (src dst : string) (fs : filesystem) : result filesystem :=
  if String.eqb src dst then Raise (SameFileError src)
  else
    match fs !! src with
    | Some text => Ok (<[dst := text]> fs)
    | None => Raise (FileNotFoundError src)
    end.

(** ** The facade: [ConfigFile] *)

(** No [default] supplied to [get]: the parameter's default [Default(None)]. *)
Definition unset_default : pyobj := DefaultInstance JNull.

(** [o is type(Default)] *)
Definition is_type_of_Default (o : pyobj) : bool :=
  match o with
  | TypeOfDefault => true
  | _ => false
  end.

(** Truth value of the [original_file_path] argument ([str] or [None]). *)
Definition truthy_path (p : option string) : bool :=
  match p with
  | None => false
  | Some EmptyString => false
  | Some _ => true
  end.

Module ConfigFile.

Section Facade.
Context {P : Type} {A : Adapter P}.

(** [config_file.parse_value.parse_value] is not among the sources. *)
Variable parse_value : pyobj -> result pyobj.

(** The private attributes [__path] and [__parser]. *)
Record t : Type := Build { path : string; parser : P }.

Definition with_parser (self : t) (p : P) : t := Build (path self) p.

(** [self.__parser.parsed_content[key]] *)
Definition __getitem__ (self : t) (key : string) : result json :=
  match adapter_parsed_content (parser self) with
  | JDict entries => Dict.getitem entries key
  | _ => Raise (TypeError "object is not subscriptable by str")
  end.

(** [self.__parser.parsed_content[key] = value] *)
Definition __setitem__ (self : t) (key : string) (value : json)
  : result unit * t :=
  match adapter_parsed_content (parser self) with
  | JDict entries =>
      (Ok tt,
       with_parser self
         (adapter_store_parsed_content (parser self)
            (JDict (Dict.setitem entries key value))))
  | _ => (Raise (TypeError "object does not support item assignment"), self)
  end.

(** [del self.__parser.parsed_content[key]] *)
Definition __delitem__ (self : t) (key : string) : result unit * t :=
  match adapter_parsed_content (parser self) with
  | JDict entries =>
      match Dict.delitem entries key with
      | Ok entries' =>
          (Ok tt,
           with_parser self
             (adapter_store_parsed_content (parser self) (JDict entries')))
      | Raise e => (Raise e, self)
      end
  | _ => (Raise (TypeError "object does not support item deletion"), self)
  end.

(** [ConfigFile.get] *)
Definition get (self : t) (key : string) (parse_types : bool)
           (return_type : option (pyobj -> result pyobj))
           (default : pyobj) : result pyobj * t :=
  let (outcome, p) := adapter_get (parser self) key in
  let self := with_parser self p in
  let fetched :=
    match outcome with
    | Raise (ParsingError error) =>
        if negb (is_type_of_Default default) then Ok default
        else Raise (ParsingError (ParsingError error))
    | other => other
    end in
  (key_value <- fetched ;;
   key_value <- (if parse_types then parse_value key_value
                 else Ok key_value) ;;
   match return_type with
   | Some cast => cast key_value
   | None => Ok key_value
   end,
   self).

(** [ConfigFile.set] *)
Definition set (self : t) (key : string) (value : json)
  : result unit * t :=
  let (outcome, p) := adapter_set (parser self) key value in
  (outcome, with_parser self p).

(** [ConfigFile.delete] *)
Definition delete (self : t) (key : string) : result unit * t :=
  let (outcome, p) := adapter_delete (parser self) key in
  (outcome, with_parser self p).

(** [ConfigFile.stringify] *)
Definition stringify (self : t) : string :=
  adapter_stringify (parser self).

(** [ConfigFile.has]: [self.__parser.has(key, wild=wild)] *)
Definition has (self : t) (key : string) (wild : bool) : result bool :=
  adapter_has (parser self) key [("wild", Plain (JBool wild))].

(** [ConfigFile.restore_original]. The [else] branch assigns the
    computed original path to [original_file_path] whatever the argument
    was. *)
Definition restore_original (self : t) (original_file_path : option string)
           (fs : filesystem) : result unit * (t * filesystem) :=
  if truthy_path original_file_path
     && negb (ConfigFilePath.exists_ (default "" original_file_path) fs)
  then (Raise (FileNotFoundError (default "" original_file_path)), (self, fs))
  else
    let original_file_path := ConfigFilePath.original_path (path self) in
    match ConfigFilePath.validate original_file_path fs with
    | Raise e => (Raise e, (self, fs))
    | Ok original_file_path =>
        match ConfigFilePath.unlink (path self) fs with
        | Raise e => (Raise e, (self, fs))
        | Ok fs1 =>
            match copyfile original_file_path (path self) fs1 with
            | Raise e => (Raise e, (self, fs1))
            | Ok fs2 =>
                match ConfigFilePath.contents (path self) fs2 with
                | Raise e => (Raise e, (self, fs2))
                | Ok text =>
                    let (outcome, p) :=
                      adapter_reset_internal_contents (parser self) text in
                    (outcome, (with_parser self p, fs2))
                end
            end
        end
    end.

(** [ConfigFile.save] *)
Definition save (self : t) (fs : filesystem) : filesystem :=
  <[path self := stringify self]> fs.
End Facade.

Arguments t P : clear implicits.
Arguments Build {P} path parser.

End ConfigFile.

(** ** A reference for Python's [json] module

    [json.loads] and [json.dumps] with their default arguments, written out
    so that texts can be run through them. Characters are the 256 of a Rocq
    [string], read as the code points U+0000 to U+00FF. The reference answers
    [NotCovered] where it does not follow the library: an escape for a code
    point above U+00FF, an integer literal longer than the interpreter's
    digit limit, nesting deeper than [max_depth]. The conversion between a
    float and its text is left to [FloatText]. *)
Module PyJson.

(** [float(text)] on a number literal and [float.__repr__]. *)
Class FloatText : Type := {
  float_of_text : string -> spec_float;
  float_repr : spec_float -> string
}.

Inductive scan (A : Type) : Type :=
| Scanned (a : A) (rest : string)
| Rejected
| Unmodelled.

Arguments Scanned {A} a rest.
Arguments Rejected {A}.
Arguments Unmodelled {A}.

Definition scan_map {A B : Type} (f : A -> B) (r : scan A) : scan B :=
  match r with
  | Scanned a rest => Scanned (f a) rest
  | Rejected => Rejected
  | Unmodelled => Unmodelled
  end.

(** A scan that does not reject: it stops at [rest], or gives no answer. *)
Definition tolerates {A : Type} (r : scan A) (rest : string) : Prop :=
  r = Unmodelled \/ exists a, r = Scanned a rest.

(** What [json.loads] does with a whole text. *)
Inductive verdict : Type :=
| Accepts (obj : json)
| Rejects
| NotCovered.

Definition quote : ascii := "034"%char.
Definition backslash : ascii := "092"%char.

(** [WHITESPACE]: space, tab, line feed, carriage return. *)
Definition is_ws (c : ascii) : bool :=
  Ascii.eqb c " "%char || Ascii.eqb c "009"%char
  || Ascii.eqb c "010"%char || Ascii.eqb c "013"%char.

Fixpoint skip_ws (s : string) : string :=
  match s with
  | EmptyString => EmptyString
  | String c rest => if is_ws c then skip_ws rest else s
  end.

(** The text [p] followed by the text [k]. *)
Fixpoint prepend (p k : string) : string :=
  match p with
  | EmptyString => k
  | String c p' => String c (prepend p' k)
  end.

Fixpoint strip_prefix (p s : string) : option string :=
  match p with
  | EmptyString => Some s
  | String c p' =>
      match s with
      | EmptyString => None
      | String c' s' => if Ascii.eqb c c' then strip_prefix p' s' else None
      end
  end.

(** *** Numbers: [NUMBER_RE] *)

Definition is_digit (c : ascii) : bool :=
  (48 <=? N_of_ascii c)%N && (N_of_ascii c <=? 57)%N.

Fixpoint span_digits (s : string) : string * string :=
  match s with
  | EmptyString => (EmptyString, EmptyString)
  | String c rest =>
      if is_digit c
      then let (ds, rest') := span_digits rest in (String c ds, rest')
      else (EmptyString, s)
  end.

(** [(0|[1-9]\d* )] *)
Definition lex_integer (s : string) : option (string * string) :=
  match s with
  | EmptyString => None
  | String c rest =>
      if Ascii.eqb c "0"%char then Some (String c EmptyString, rest)
      else if is_digit c
           then let (ds, rest') := span_digits rest in Some (String c ds, rest')
           else None
  end.

(** [(\.\d+)?] *)
Definition lex_frac (s : string) : string * string :=
  match s with
  | String c rest =>
      if Ascii.eqb c "."%char
      then match span_digits rest with
           | (EmptyString, _) => (EmptyString, s)
           | (ds, rest') => (String c ds, rest')
           end
      else (EmptyString, s)
  | EmptyString => (EmptyString, s)
  end.

Definition is_sign (c : ascii) : bool :=
  Ascii.eqb c "+"%char || Ascii.eqb c "-"%char.

(** [([eE][-+]?\d+)?] *)
Definition lex_exp (s : string) : string * string :=
  match s with
  | String c rest =>
      if Ascii.eqb c "e"%char || Ascii.eqb c "E"%char
      then match rest with
           | String sg rest1 =>
               if is_sign sg
               then match span_digits rest1 with
                    | (EmptyString, _) => (EmptyString, s)
                    | (ds, rest') => (String c (String sg ds), rest')
                    end
               else match span_digits rest with
                    | (EmptyString, _) => (EmptyString, s)
                    | (ds, rest') => (String c ds, rest')
                    end
           | EmptyString => (EmptyString, s)
           end
      else (EmptyString, s)
  | EmptyString => (EmptyString, s)
  end.

Inductive number_token : Type :=
| IntToken (negative : bool) (digits : string)
| FloatToken (text : string).

Definition lex_number (s : string) : option (number_token * string) :=
  let (negative, s1) :=
    match s with
    | String c rest => if Ascii.eqb c "-"%char then (true, rest) else (false, s)
    | EmptyString => (false, s)
    end in
  match lex_integer s1 with
  | None => None
  | Some (ds, s2) =>
      let (frac, s3) := lex_frac s2 in
      let (exp, s4) := lex_exp s3 in
      match frac, exp with
      | EmptyString, EmptyString => Some (IntToken negative ds, s4)
      | _, _ =>
          Some (FloatToken
                  (prepend (if negative then "-" else "")
                     (prepend ds (prepend frac exp))), s4)
      end
  end.

(** The interpreter converts integer literals of at most this many digits. *)
Definition max_int_digits : nat := 4300.

(** [int(digits)] *)
Definition N_of_digits (ds : string) : N :=
  match NilEmpty.uint_of_string ds with
  | Some u => N.of_uint u
  | None => 0%N
  end.

Definition int_value (negative : bool) (ds : string) : Z :=
  if negative then Z.opp (Z.of_N (N_of_digits ds)) else Z.of_N (N_of_digits ds).

(** [str(n)] for [n >= 0] *)
Definition str_of_N (n : N) : string := NilEmpty.string_of_uint (N.to_uint n).

(** *** Strings: [scanstring] and [encode_basestring_ascii] *)

Definition hex_value (c : ascii) : option N :=
  let n := N_of_ascii c in
  if is_digit c then Some (n - 48)%N
  else if (97 <=? n)%N && (n <=? 102)%N then Some (n - 87)%N
  else if (65 <=? n)%N && (n <=? 70)%N then Some (n - 55)%N
  else None.

Definition hex4 (a b c d : ascii) : option N :=
  match hex_value a, hex_value b, hex_value c, hex_value d with
  | Some x, Some y, Some z, Some w => Some (((x * 16 + y) * 16 + z) * 16 + w)%N
  | _, _, _, _ => None
  end.

(** The character a one-letter escape stands for. *)
Definition unescape (c : ascii) : option ascii :=
  if Ascii.eqb c quote then Some quote
  else if Ascii.eqb c backslash then Some backslash
  else if Ascii.eqb c "/"%char then Some "/"%char
  else if Ascii.eqb c "b"%char then Some "008"%char
  else if Ascii.eqb c "f"%char then Some "012"%char
  else if Ascii.eqb c "n"%char then Some "010"%char
  else if Ascii.eqb c "r"%char then Some "013"%char
  else if Ascii.eqb c "t"%char then Some "009"%char
  else None.

(** [scanstring], from the character after the opening quote. *)
Fixpoint scanstring (s : string) : scan string :=
  match s with
  | EmptyString => Rejected
  | String c rest =>
      if Ascii.eqb c quote then Scanned EmptyString rest
      else if Ascii.eqb c backslash then
        match rest with
        | EmptyString => Rejected
        | String e rest1 =>
            if Ascii.eqb e "u"%char then
              match rest1 with
              | String h1 (String h2 (String h3 (String h4 rest2))) =>
                  match hex4 h1 h2 h3 h4 with
                  | Some n =>
                      if (n <? 256)%N
                      then scan_map (String (ascii_of_N n)) (scanstring rest2)
                      else Unmodelled
                  | None => Rejected
                  end
              | _ => Rejected
              end
            else
              match unescape e with
              | Some c' => scan_map (String c') (scanstring rest1)
              | None => Rejected
              end
        end
      else if (N_of_ascii c <? 32)%N then Rejected
      else scan_map (String c) (scanstring rest)
  end.

Definition hex_digit (n : N) : ascii :=
  if (n <? 10)%N then ascii_of_N (n + 48) else ascii_of_N (n + 87).

(** One character as [json.dumps] writes it with [ensure_ascii]. *)
Definition emit_char (c : ascii) (k : string) : string :=
  let n := N_of_ascii c in
  if Ascii.eqb c quote then String backslash (String quote k)
  else if Ascii.eqb c backslash then String backslash (String backslash k)
  else if Ascii.eqb c "010"%char then String backslash (String "n" k)
  else if Ascii.eqb c "013"%char then String backslash (String "r" k)
  else if Ascii.eqb c "009"%char then String backslash (String "t" k)
  else if Ascii.eqb c "008"%char then String backslash (String "b" k)
  else if Ascii.eqb c "012"%char then String backslash (String "f" k)
  else if (32 <=? n)%N && (n <=? 126)%N then String c k
  else String backslash
         (String "u" (String "0" (String "0"
            (String (hex_digit (n / 16)) (String (hex_digit (n mod 16)) k))))).

Fixpoint emit_chars (s : string) (k : string) : string :=
  match s with
  | EmptyString => k
  | String c rest => emit_char c (emit_chars rest k)
  end.

Definition emit_string (s : string) (k : string) : string :=
  String quote (emit_chars s (String quote k)).

(** *** Values: [scan_once], [JSONArray], [JSONObject] *)

(** The elements of an array, from the first character of an element. *)
Fixpoint scan_items (scan_value : string -> scan json) (fuel : nat)
         (s : string) : scan (list json) :=
  match fuel with
  | O => Unmodelled
  | S fuel' =>
      match scan_value s with
      | Scanned v rest =>
          match skip_ws rest with
          | String c rest1 =>
              if Ascii.eqb c "]"%char then Scanned [v] rest1
              else if Ascii.eqb c ","%char
                   then scan_map (cons v)
                          (scan_items scan_value fuel' (skip_ws rest1))
                   else Rejected
          | EmptyString => Rejected
          end
      | Rejected => Rejected
      | Unmodelled => Unmodelled
      end
  end.

Definition scan_array (scan_value : string -> scan json) (s : string)
  : scan json :=
  match skip_ws s with
  | EmptyString => Rejected
  | String c rest as s1 =>
      if Ascii.eqb c "]"%char then Scanned (JList []) rest
      else scan_map JList (scan_items scan_value (String.length s1) s1)
  end.

(** The pairs of an object, from the character after the opening quote of a
    key. *)
Fixpoint scan_pairs (scan_value : string -> scan json) (fuel : nat)
         (s : string) : scan (list (string * json)) :=
  match fuel with
  | O => Unmodelled
  | S fuel' =>
      match scanstring s with
      | Scanned key rest =>
          match skip_ws rest with
          | String c rest1 =>
              if Ascii.eqb c ":"%char then
                match scan_value (skip_ws rest1) with
                | Scanned v rest2 =>
                    match skip_ws rest2 with
                    | String d rest3 =>
                        if Ascii.eqb d "}"%char then Scanned [(key, v)] rest3
                        else if Ascii.eqb d ","%char then
                          match skip_ws rest3 with
                          | String q rest4 =>
                              if Ascii.eqb q quote
                              then scan_map (cons (key, v))
                                     (scan_pairs scan_value fuel' rest4)
                              else Rejected
                          | EmptyString => Rejected
                          end
                        else Rejected
                    | EmptyString => Rejected
                    end
                | Rejected => Rejected
                | Unmodelled => Unmodelled
                end
              else Rejected
          | EmptyString => Rejected
          end
      | Rejected => Rejected
      | Unmodelled => Unmodelled
      end
  end.

(** [dict(pairs)]: a later pair with the same key replaces the value and
    keeps the place of the first. *)
Definition dict_of_pairs (pairs : list (string * json))
  : list (string * json) :=
  fold_left (fun d kv => Dict.setitem d (fst kv) (snd kv)) pairs [].

Definition scan_object (scan_value : string -> scan json) (s : string)
  : scan json :=
  match skip_ws s with
  | EmptyString => Rejected
  | String c rest as s1 =>
      if Ascii.eqb c "}"%char then Scanned (JDict []) rest
      else if Ascii.eqb c quote
           then scan_map (fun pairs => JDict (dict_of_pairs pairs))
                  (scan_pairs scan_value (String.length s1) rest)
           else Rejected
  end.

Section WithFloats.
Context {F : FloatText}.

Definition scan_number (s : string) : scan json :=
  match lex_number s with
  | Some (IntToken negative ds, rest) =>
      if (max_int_digits <? String.length ds)%nat then Unmodelled
      else Scanned (JInt (int_value negative ds)) rest
  | Some (FloatToken text, rest) => Scanned (JFloat (float_of_text text)) rest
  | None =>
      match strip_prefix "NaN" s with
      | Some rest => Scanned (JFloat S754_nan) rest
      | None =>
          match strip_prefix "Infinity" s with
          | Some rest => Scanned (JFloat (S754_infinity false)) rest
          | None =>
              match strip_prefix "-Infinity" s with
              | Some rest => Scanned (JFloat (S754_infinity true)) rest
              | None => Rejected
              end
          end
      end
  end.

(** [scan_once]: one value at the start of [s], with [depth] levels of
    nesting left. *)
Fixpoint scan_once (depth : nat) (s : string) : scan json :=
  match depth with
  | O => Unmodelled
  | S d =>
      match s with
      | EmptyString => Rejected
      | String c rest =>
          if Ascii.eqb c quote then scan_map JStr (scanstring rest)
          else if Ascii.eqb c "{"%char then scan_object (scan_once d) rest
          else if Ascii.eqb c "["%char then scan_array (scan_once d) rest
          else
            match strip_prefix "null" s with
            | Some rest' => Scanned JNull rest'
            | None =>
                match strip_prefix "true" s with
                | Some rest' => Scanned (JBool true) rest'
                | None =>
                    match strip_prefix "false" s with
                    | Some rest' => Scanned (JBool false) rest'
                    | None => scan_number s
                    end
                end
            end
      end
  end.

(** [json.loads(raw)]: one value between white space, and nothing after. *)
Definition loads (max_depth : nat) (raw : string) : verdict :=
  match scan_once max_depth (skip_ws raw) with
  | Scanned obj rest =>
      match skip_ws rest with
      | EmptyString => Accepts obj
      | String _ _ => Rejects
      end
  | Rejected => Rejects
  | Unmodelled => NotCovered
  end.

(** [str(n)] *)
Definition emit_int (n : Z) (k : string) : string :=
  match n with
  | Zneg p => String "-" (prepend (str_of_N (Npos p)) k)
  | _ => prepend (str_of_N (Z.to_N n)) k
  end.

Definition emit_float (f : spec_float) (k : string) : string :=
  match f with
  | S754_nan => prepend "NaN" k
  | S754_infinity false => prepend "Infinity" k
  | S754_infinity true => prepend "-Infinity" k
  | _ => prepend (float_repr f) k
  end.

Section Containers.
Variable emit_value : json -> string -> string.

Fixpoint emit_items (items : list json) (k : string) : string :=
  match items with
  | [] => String "]" k
  | x :: rest => String "," (String " " (emit_value x (emit_items rest k)))
  end.

Definition emit_pair (kv : string * json) (k : string) : string :=
  emit_string (fst kv) (String ":" (String " " (emit_value (snd kv) k))).

Fixpoint emit_pairs (entries : list (string * json)) (k : string) : string :=
  match entries with
  | [] => String "}" k
  | kv :: rest => String "," (String " " (emit_pair kv (emit_pairs rest k)))
  end.
End Containers.

(** The text [json.dumps] writes for [t], followed by [k]. *)
Fixpoint emit (t : json) (k : string) {struct t} : string :=
  match t with
  | JNull => prepend "null" k
  | JBool true => prepend "true" k
  | JBool false => prepend "false" k
  | JInt n => emit_int n k
  | JFloat f => emit_float f k
  | JStr s => emit_string s k
  | JList [] => String "[" (String "]" k)
  | JList (x :: rest) => String "[" (emit x (emit_items emit rest k))
  | JDict [] => String "{" (String "}" k)
  | JDict (kv :: rest) =>
      String "{" (emit_pair emit kv (emit_pairs emit rest k))
  end.

(** [json.dumps(t)] *)
Definition dumps (t : json) : string := emit t EmptyString.
End WithFloats.

End PyJson.

(** ** What the reference covers, and what is asked of the library *)

Module PyJsonDomain.
Import PyJson.

(** A text that can follow a value: nothing, or a comma or a closing
    bracket. *)
Definition delimited (k : string) : bool :=
  match k with
  | EmptyString => true
  | String c _ =>
      Ascii.eqb c ","%char || Ascii.eqb c "]"%char || Ascii.eqb c "}"%char
  end.

(** A text that starts a number: a digit or a minus sign. *)
Definition number_head (s : string) : bool :=
  match s with
  | EmptyString => false
  | String c _ => is_digit c || Ascii.eqb c "-"%char
  end.

(** A text that starts with a character of a value: no white space, no
    closing bracket. *)
Definition value_head (s : string) : bool :=
  match s with
  | EmptyString => false
  | String c _ =>
      negb (is_ws c) && negb (Ascii.eqb c "]"%char)
      && negb (Ascii.eqb c "}"%char)
  end.

Definition is_finite (f : spec_float) : bool :=
  match f with
  | S754_zero _ | S754_finite _ _ _ => true
  | _ => false
  end.

Section WithFloats.
Context {F : FloatText}.

(** The objects the reference both reads and writes: nesting within
    [depth], integers within the digit limit, finite floats that are the
    value of some literal, objects without a repeated key. *)
Fixpoint in_domain (depth : nat) (t : json) : Prop :=
  match depth with
  | O => False
  | S d =>
      match t with
      | JInt n =>
          (String.length (str_of_N (Z.abs_N n)) <= max_int_digits)%nat
      | JFloat f =>
          is_finite f = true -> exists text, float_of_text text = f
      | JList items => Forall (in_domain d) items
      | JDict entries =>
          Dict.wf entries /\ Forall (fun kv => in_domain d (snd kv)) entries
      | _ => True
      end
  end.

(** What Python promises of its floats: [repr] of a finite float read from
    a literal is itself a number literal with a fraction or an exponent,
    and reads back as the same float. *)
Definition float_text_faithful : Prop :=
  forall text,
    let f := float_of_text text in
    is_finite f = true ->
    lex_number (float_repr f) = Some (FloatToken (float_repr f), EmptyString)
    /\ float_of_text (float_repr f) = f.

(** A [json] module that behaves as the reference wherever the reference
    answers. *)
Definition agrees (J : JsonModule) (max_depth : nat) : Prop :=
  (forall raw obj, loads max_depth raw = Accepts obj ->
                   json_loads raw = Loaded obj)
  /\ (forall raw, loads max_depth raw = Rejects ->
                  exists msg pos, json_loads raw = DecodeError msg pos)
  /\ (forall obj, in_domain max_depth obj -> json_dumps obj = dumps obj).

(** The text written for [x] reads back as [x], whatever follows it. *)
Definition reads_back (d : nat) (x : json) : Prop :=
  forall k, delimited k = true ->
            scan_once d (emit x k) = Scanned x k
            /\ value_head (emit x k) = true.
End WithFloats.

End PyJsonDomain.

(** ** Valid JSON

    The grammar of RFC 8259, as a recognizer: what the claim about [parse]
    calls well-formed. It has no [NaN] and no [Infinity]. *)
Module Rfc8259.
Import PyJson.

(** The characters of a string, from the one after the opening quotation
    mark; the result is the text after the closing one. *)
Fixpoint string_rest (s : string) : option string :=
  match s with
  | EmptyString => None
  | String c rest =>
      if Ascii.eqb c quote then Some rest
      else if Ascii.eqb c backslash then
        match rest with
        | EmptyString => None
        | String e rest1 =>
            if Ascii.eqb e "u"%char then
              match rest1 with
              | String h1 (String h2 (String h3 (String h4 rest2))) =>
                  match hex4 h1 h2 h3 h4 with
                  | Some _ => string_rest rest2
                  | None => None
                  end
              | _ => None
              end
            else
              match unescape e with
              | Some _ => string_rest rest1
              | None => None
              end
        end
      else if (N_of_ascii c <? 32)%N then None
      else string_rest rest
  end.

(** [value *( value-separator value ) end-array] *)
Fixpoint elements (value : string -> option string) (fuel : nat) (s : string)
  : option string :=
  match fuel with
  | O => None
  | S fuel' =>
      match value s with
      | Some rest =>
          match skip_ws rest with
          | String c rest1 =>
              if Ascii.eqb c "]"%char then Some rest1
              else if Ascii.eqb c ","%char
                   then elements value fuel' (skip_ws rest1)
                   else None
          | EmptyString => None
          end
      | None => None
      end
  end.

(** [member *( value-separator member ) end-object], from the character
    after the quotation mark that opens the first name. *)
Fixpoint members (value : string -> option string) (fuel : nat) (s : string)
  : option string :=
  match fuel with
  | O => None
  | S fuel' =>
      match string_rest s with
      | Some rest =>
          match skip_ws rest with
          | String c rest1 =>
              if Ascii.eqb c ":"%char then
                match value (skip_ws rest1) with
                | Some rest2 =>
                    match skip_ws rest2 with
                    | String d rest3 =>
                        if Ascii.eqb d "}"%char then Some rest3
                        else if Ascii.eqb d ","%char then
                          match skip_ws rest3 with
                          | String q rest4 =>
                              if Ascii.eqb q quote
                              then members value fuel' rest4
                              else None
                          | EmptyString => None
                          end
                        else None
                    | EmptyString => None
                    end
                | None => None
                end
              else None
          | EmptyString => None
          end
      | None => None
      end
  end.

(** [value = false / null / true / object / array / number / string] *)
Fixpoint value (fuel : nat) (s : string) : option string :=
  match fuel with
  | O => None
  | S fuel' =>
      match s with
      | EmptyString => None
      | String c rest =>
          if Ascii.eqb c quote then string_rest rest
          else if Ascii.eqb c "{"%char then
            match skip_ws rest with
            | EmptyString => None
            | String c1 rest1 as s1 =>
                if Ascii.eqb c1 "}"%char then Some rest1
                else if Ascii.eqb c1 quote
                     then members (value fuel') (String.length s1) rest1
                     else None
            end
          else if Ascii.eqb c "["%char then
            match skip_ws rest with
            | EmptyString => None
            | String c1 rest1 as s1 =>
                if Ascii.eqb c1 "]"%char then Some rest1
                else elements (value fuel') (String.length s1) s1
            end
          else
            match strip_prefix "null" s with
            | Some rest' => Some rest'
            | None =>
                match strip_prefix "true" s with
                | Some rest' => Some rest'
                | None =>
                    match strip_prefix "false" s with
                    | Some rest' => Some rest'
                    | None =>
                        match lex_number s with
                        | Some (_, rest') => Some rest'
                        | None => None
                        end
                    end
                end
            end
      end
  end.

(** [JSON-text = ws value ws] *)
Definition valid (raw : string) : bool :=
  match value (S (String.length raw)) (skip_ws raw) with
  | Some rest =>
      match skip_ws rest with
      | EmptyString => true
      | String _ _ => false
      end
  | None => false
  end.

End Rfc8259.

(** ** A module to run the adapter on *)

Module PyJsonModule.
Import PyJson.

(** Floats that all read as [0.0]: enough to run texts without fractions. *)
Definition zero_floats : FloatText := {|
  float_of_text := fun _ => S754_zero false;
  float_repr := fun _ => "0.0"
|}.

(** The reference as a [json] module. Where the reference does not answer,
    this module raises; nothing is claimed of the library there. *)
Definition of_reference (F : FloatText) (max_depth : nat) : JsonModule := {|
  json_loads := fun raw =>
    match loads max_depth raw with
    | Accepts obj => Loaded obj
    | Rejects => DecodeError "Expecting value" 0
    | NotCovered => OtherError (NestingTooDeep "outside the reference")
    end;
  json_dumps := dumps
|}.

(** [ {"k": [1, -20 , true,null, {}, [ NaN ] ] } ] with uneven spacing. *)
Definition spaced_text : string :=
  String " " (String "{" (String quote (String "k" (String quote
    (": [1, -20 , true,null, {}, [ NaN ] ] } "))))).

Definition spaced_tree : json :=
  JDict [("k", JList [JInt 1; JInt (-20); JBool true; JNull; JDict [];
                      JList [JFloat S754_nan]])].

(** The text [s] between quotation marks, followed by [k]. *)
Definition quoted (s k : string) : string :=
  String quote (prepend s (String quote k)).

(** [{"a": [1, -20, true, null, 0.0], "b": {"c": "\u00e9x"}}] *)
Definition plain_text : string :=
  String "{"
    (quoted "a"
       (prepend ": [1, -20, true, null, 0.0], "
          (quoted "b"
             (prepend ": {"
                (quoted "c"
                   (prepend ": "
                      (quoted (String backslash "u00e9x") "}}"))))))).

Definition plain_tree : json :=
  JDict [("a", JList [JInt 1; JInt (-20); JBool true; JNull;
                      JFloat (S754_zero false)]);
         ("b", JDict [("c", JStr (String "233" "x"))])].

(** [{"a": [1, ]: the text stops inside the array. *)
Definition truncated_text : string :=
  String "{" (quoted "a" ": [1, ").

End PyJsonModule.

(** ** What the specification describes

    Definitions that follow the specification's wording, to compare with the
    code above. *)
Module Spec.

(** Key Path: the dotted key split on [.] into its segments. *)
Fixpoint split_key (key : string) : list string :=
  match key with
  | EmptyString => [EmptyString]
  | String c rest =>
      if Ascii.eqb c "."%char then EmptyString :: split_key rest
      else
        match split_key rest with
        | seg :: segs => String c seg :: segs
        | [] => [String c EmptyString]
        end
  end.

Definition last_segment (key : string) : string :=
  List.last (split_key key) EmptyString.

(** Key Path Resolver, Read mode: descend one Mapping per segment; fail when
    a node is not a Mapping or a segment is absent. *)
Fixpoint resolve (segments : list string) (node : json) : option json :=
  match segments with
  | [] => Some node
  | seg :: rest =>
      match node with
      | JDict entries =>
          match Dict.lookup seg entries with
          | Some child => resolve rest child
          | None => None
          end
      | _ => None
      end
  end.

Definition resolves (key : string) (tree : json) : bool :=
  match resolve (split_key key) tree with
  | Some _ => true
  | None => false
  end.

(** Wildcard search: some Mapping of the tree, at any depth below the root
    through Mapping values, has the key. *)
Fixpoint key_anywhere (k : string) (node : json) : bool :=
  match node with
  | JDict entries =>
      Dict.contains k entries
      || existsb (fun kv => key_anywhere k (snd kv)) entries
  | _ => false
  end.

(** [exists(tree, path, wild)] of the Wildcard Search component. *)
Definition exists_ (tree : json) (key : string) (wild : bool) : bool :=
  if wild then key_anywhere (last_segment key) tree else resolves key tree.

End Spec.

(** What [JsonParser._search] finds in a [dict]: the key among the entries of
    the [dict] itself or of a [dict] that is one of its values. *)
Definition is_dict_with (k : string) (value : json) : bool :=
  match value with
  | JDict inner => Dict.contains k inner
  | _ => false
  end.

Definition found_within_two_levels (k : string) (entries : list (string * json))
  : bool :=
  Dict.contains k entries || existsb (fun kv => is_dict_with k (snd kv)) entries.

(** ** Sample objects *)

Module Sample.

(** [{"a": {"b": {"c": 1}}}] *)
Definition nested_tree : json :=
  JDict [("a", JDict [("b", JDict [("c", JInt 1)])])].

(** [{"a": {"b": 1}}] *)
Definition two_level_tree : json :=
  JDict [("a", JDict [("b", JInt 1)])].

(** [{"a": 1}] *)
Definition flat_tree : json := JDict [("a", JInt 1)].

(** [{"a.b": 2, "a": {"b": 1}}] *)
Definition dotted_tree : json :=
  JDict [("a.b", JInt 2); ("a", JDict [("b", JInt 1)])].

Definition config_of (tree : json) : ConfigFile.t JsonParser.t :=
  ConfigFile.Build "config.json" (JsonParser.Build tree).

(** A directory with the configuration file, its sibling original and a
    backup kept elsewhere. *)
Definition disk : filesystem :=
  <["config.json" := "[0]"]>
    (<["config.original.json" := "[1]"]>
       (<["backup.json" := "[2]"]> ∅)).

(** The same directory without the sibling original. *)
Definition disk_without_sibling : filesystem :=
  <["config.json" := "[0]"]> (<["backup.json" := "[2]"]> ∅).

(** A [json] module cut down to five documents, enough to run the adapter
    on concrete text. *)
Definition literal_loads (raw : string) : loads_result :=
  if String.eqb raw "null" then Loaded JNull
  else if String.eqb raw "true" then Loaded (JBool true)
  else if String.eqb raw "false" then Loaded (JBool false)
  else if String.eqb raw "[]" then Loaded (JList [])
  else if String.eqb raw "{}" then Loaded (JDict [])
  else DecodeError "Expecting value" 0.

Definition literal_dumps (obj : json) : string :=
  match obj with
  | JBool true => "true"
  | JBool false => "false"
  | JList [] => "[]"
  | JDict [] => "{}"
  | _ => "null"
  end.

Definition literal_json : JsonModule :=
  {| json_loads := literal_loads; json_dumps := literal_dumps |}.

(** An adapter that reports every key as missing, the way the facade's
    [get] expects it: by raising [ParsingError]. *)
Definition missing_key_adapter : Adapter unit := {|
  adapter_parsed_content := fun _ => JDict [];
  adapter_store_parsed_content := fun _ _ => tt;
  adapter_get := fun _ key => (Raise (ParsingError (KeyError key)), tt);
  adapter_set := fun _ _ _ => (Ok tt, tt);
  adapter_delete := fun _ key => (Raise (ParsingError (KeyError key)), tt);
  adapter_stringify := fun _ => "";
  adapter_has := fun _ _ _ => Ok false;
  adapter_reset_internal_contents := fun _ _ => (Ok tt, tt)
|}.

End Sample.

(** ** Further sample objects *)

Module Fixture.

(** A parsed document that is an array: [[1, 2]]. *)
Definition list_document : json := JList [JInt 1; JInt 2].

(** [{"b": 2, "a": {"x": 1}}] and the same entries inserted in the other
    order. *)
Definition unordered_tree : list (string * json) :=
  [("b", JInt 2); ("a", JDict [("x", JInt 1)])].

Definition reordered_tree : list (string * json) :=
  [("a", JDict [("x", JInt 1)]); ("b", JInt 2)].

(** A directory whose sibling original is cut off in the middle. *)
Definition disk_with_broken_original : filesystem :=
  <["config.json" := "{}"]> (<["config.original.json" := "{"]> ∅).

(** A directory whose sibling original is the empty object. *)
Definition disk_with_empty_original : filesystem :=
  <["config.json" := "[]"]>
    (<["config.original.json" := "{}"]> (<["notes.txt" := "keep"]> ∅)).

(** An adapter whose [get] signals every key as missing with [KeyError]. *)
Definition key_error_adapter : Adapter unit := {|
  adapter_parsed_content := fun _ => JDict [];
  adapter_store_parsed_content := fun _ _ => tt;
  adapter_get := fun _ key => (Raise (KeyError key), tt);
  adapter_set := fun _ _ _ => (Ok tt, tt);
  adapter_delete := fun _ key => (Raise (KeyError key), tt);
  adapter_stringify := fun _ => "";
  adapter_has := fun _ _ _ => Ok false;
  adapter_reset_internal_contents := fun _ _ => (Ok tt, tt)
|}.

(** A stand-in for [parse_value] that reads the text [7] as the number. *)
Definition parse_seven (o : pyobj) : result pyobj :=
  match o with
  | Plain (JStr "7") => Ok (Plain (JInt 7))
  | other => Ok other
  end.

End Fixture.

(** * Properties *)

(** ** Induction over nested values *)

Section JsonInd.
Variable Q : json -> Prop.
Hypothesis HNull : Q JNull.
Hypothesis HBool : forall b, Q (JBool b).
Hypothesis HInt : forall n, Q (JInt n).
Hypothesis HFloat : forall f, Q (JFloat f).
Hypothesis HStr : forall s, Q (JStr s).
Hypothesis HList : forall items, Forall Q items -> Q (JList items).
Hypothesis HDict :
  forall entries, Forall (fun kv => Q (snd kv)) entries -> Q (JDict entries).

Fixpoint json_nested_ind (j : json) : Q j :=
  match j with
  | JNull => HNull
  | JBool b => HBool b
  | JInt n => HInt n
  | JFloat f => HFloat f
  | JStr s => HStr s
  | JList items =>
      HList items
        ((fix all (l : list json) : Forall Q l :=
            match l with
            | [] => List.Forall_nil Q
            | x :: l' => @List.Forall_cons _ Q x l' (json_nested_ind x) (all l')
            end) items)
  | JDict entries =>
      HDict entries
        ((fix all (l : list (string * json))
            : Forall (fun kv => Q (snd kv)) l :=
            match l with
            | [] => List.Forall_nil _
            | kv :: l' =>
                @List.Forall_cons _ (fun kv => Q (snd kv)) kv l'
                  (json_nested_ind (snd kv)) (all l')
            end) entries)
  end.
End JsonInd.

(** ** Dictionary laws *)

Module DictFacts.
Import Dict.

Section Laws.
Context {V : Type}.
Implicit Types (d : list (string * V)) (k : string) (v : V).

Lemma contains_lookup k d :
  contains k d = match lookup k d with Some _ => true | None => false end.
Proof.
  induction d as [|[k' v'] d IH]; simpl; [reflexivity|].
  destruct (String.eqb k k'); [reflexivity|exact IH].
Qed.

Lemma contains_keys k d : contains k d = true <-> In k (keys d).
Proof.
  induction d as [|[k' v'] d IH]; simpl.
  - split; [discriminate|tauto].
  - destruct (String.eqb_spec k k') as [->|Hne].
    + split; auto.
    + rewrite IH. split; [tauto|]. intros [Heq|Hin]; [congruence|exact Hin].
Qed.

Lemma lookup_In k v d : lookup k d = Some v -> In (k, v) d.
Proof.
  induction d as [|[k' v'] d IH]; simpl; [discriminate|].
  destruct (String.eqb_spec k k') as [->|Hne].
  - intros [= ->]. now left.
  - intros H. right. now apply IH.
Qed.

Lemma In_lookup k v d : wf d -> In (k, v) d -> lookup k d = Some v.
Proof.
  unfold wf, keys.
  induction d as [|[k' v'] d IH]; simpl; [tauto|].
  intros Hnd [Heq|Hin].
  - injection Heq as -> ->. now rewrite String.eqb_refl.
  - apply NoDup_cons in Hnd as [Hfresh Hrest].
    destruct (String.eqb_spec k k') as [->|Hne].
    + exfalso. apply Hfresh. apply list_elem_of_In.
      change k' with (fst (k', v)). apply in_map. exact Hin.
    + now apply IH.
Qed.

Lemma lookup_setitem_eq k v d : lookup k (setitem d k v) = Some v.
Proof.
  induction d as [|[k' v'] d IH]; simpl.
  - now rewrite String.eqb_refl.
  - destruct (String.eqb k k') eqn:E; simpl; rewrite E; [reflexivity|exact IH].
Qed.

Lemma lookup_setitem_ne k k' v d :
  k' <> k -> lookup k' (setitem d k v) = lookup k' d.
Proof.
  intros Hne.
  induction d as [|[k0 v0] d IH]; simpl.
  - destruct (String.eqb_spec k' k); [contradiction|reflexivity].
  - destruct (String.eqb_spec k k0) as [->|Hk]; simpl.
    + destruct (String.eqb_spec k' k0); [contradiction|reflexivity].
    + destruct (String.eqb k' k0); [reflexivity|exact IH].
Qed.

Lemma lookup_remove_ne k k' d :
  k' <> k -> lookup k' (remove k d) = lookup k' d.
Proof.
  intros Hne.
  induction d as [|[k0 v0] d IH]; simpl; [reflexivity|].
  destruct (String.eqb_spec k k0) as [->|Hk]; simpl.
  - destruct (String.eqb_spec k' k0); [contradiction|reflexivity].
  - destruct (String.eqb k' k0); [reflexivity|exact IH].
Qed.

Lemma lookup_absent_keys k d : ~ In k (keys d) -> lookup k d = None.
Proof.
  intros Hnot. pose proof (contains_keys k d) as Hc.
  rewrite contains_lookup in Hc.
  destruct (lookup k d); [|reflexivity].
  exfalso. apply Hnot, Hc. reflexivity.
Qed.

Lemma lookup_remove_eq k d : wf d -> lookup k (remove k d) = None.
Proof.
  unfold wf, keys.
  induction d as [|[k0 v0] d IH]; simpl; [reflexivity|].
  intros Hnd. apply NoDup_cons in Hnd as [Hfresh Hrest].
  destruct (String.eqb_spec k k0) as [->|Hk]; simpl.
  - apply lookup_absent_keys. intros Hin. apply Hfresh.
    now apply list_elem_of_In.
  - destruct (String.eqb_spec k k0); [contradiction|]. now apply IH.
Qed.

Lemma keys_setitem k v d :
  keys (setitem d k v) = if contains k d then keys d else keys d ++ [k].
Proof.
  induction d as [|[k0 v0] d IH]; simpl; [reflexivity|].
  destruct (String.eqb k k0); simpl; [reflexivity|].
  rewrite IH. destruct (contains k d); reflexivity.
Qed.

Lemma keys_remove_incl k k' d : In k' (keys (remove k d)) -> In k' (keys d).
Proof.
  induction d as [|[k0 v0] d IH]; simpl; [tauto|].
  destruct (String.eqb k k0); simpl; [tauto|].
  intros [H|H]; [now left|right; now apply IH].
Qed.

Lemma wf_setitem k v d : wf d -> wf (setitem d k v).
Proof.
  unfold wf. rewrite keys_setitem.
  destruct (contains k d) eqn:E; [trivial|].
  intros Hnd. apply NoDup_app. split; [exact Hnd|]. split.
  - intros x Hx Hx'. apply list_elem_of_In in Hx, Hx'.
    destruct Hx' as [<-|[]].
    apply contains_keys in Hx. congruence.
  - apply NoDup_singleton.
Qed.

Lemma wf_remove k d : wf d -> wf (remove k d).
Proof.
  unfold wf, keys.
  induction d as [|[k0 v0] d IH]; simpl; [trivial|].
  intros Hnd. apply NoDup_cons in Hnd as [Hfresh Hrest].
  destruct (String.eqb k k0); simpl; [exact Hrest|].
  apply NoDup_cons. split; [|now apply IH].
  intros Hin. apply Hfresh. apply list_elem_of_In.
  apply list_elem_of_In in Hin. now apply keys_remove_incl in Hin.
Qed.
End Laws.

End DictFacts.

(** ** What [_search] computes *)

Module SearchFacts.
Import JsonParser.

(** The loop of [_search] over a suffix [items] of [data.items()]. *)
Lemma _search_loop_no_recursion_result k entries :
  Forall (fun kv => forall inner, snd kv = JDict inner ->
                    exists b, _search (snd kv) k = Ok b) entries ->
  _search (JDict entries) k = Ok (found_within_two_levels k entries).
Proof.
  intros Hvalues. unfold found_within_two_levels. cbn [_search].
  destruct (Dict.contains k entries) eqn:Hhere.
  - destruct entries as [|[key value] rest]; [discriminate|reflexivity].
  - rewrite orb_false_l. revert Hvalues.
    generalize entries as items. clear Hhere.
    induction items as [|[key value] rest IH]; intros Hvalues;
      [reflexivity|].
    apply Forall_cons in Hvalues as [Hvalue Hrest].
    destruct value as [| | | | | |inner];
      cbn [existsb snd is_dict_with orb]; try (apply IH; exact Hrest).
    destruct (Dict.contains k inner) eqn:Hinner; [reflexivity|].
    destruct (Hvalue inner eq_refl) as [b Hb].
    cbn [snd] in Hb. rewrite Hb. cbn [bind orb].
    apply IH. exact Hrest.
Qed.

(** On a [dict], [_search] returns: it never raises. *)
Lemma _search_dict_returns k (data : json) :
  forall inner, data = JDict inner -> exists b, _search data k = Ok b.
Proof.
  induction data as [| | | | | |entries IH] using json_nested_ind;
    intros inner Heq; try discriminate.
  exists (found_within_two_levels k entries).
  apply _search_loop_no_recursion_result. exact IH.
Qed.

(** [_search] on a [dict] looks at the [dict] and at the [dict]s among its
    values, and no further. *)
Lemma _search_dict k entries :
  _search (JDict entries) k = Ok (found_within_two_levels k entries).
Proof.
  apply _search_loop_no_recursion_result.
  apply Forall_forall. intros kv _ inner Heq.
  exact (_search_dict_returns k (snd kv) inner Heq).
Qed.

(** A parsed document that is not an object has no [items]. *)
Lemma _search_not_dict k (data : json) :
  (forall entries, data <> JDict entries) -> raises (_search data k) = true.
Proof.
  intros Hnot. destruct data; try reflexivity.
  exfalso. exact (Hnot entries eq_refl).
Qed.

(** What [_search] reports is in the tree: a key found within two levels is
    a key of some Mapping of the tree. *)
Lemma found_within_two_levels_anywhere k entries :
  found_within_two_levels k entries = true ->
  Spec.key_anywhere k (JDict entries) = true.
Proof.
  unfold found_within_two_levels. cbn [Spec.key_anywhere].
  destruct (Dict.contains k entries); [reflexivity|]. cbn [orb].
  induction entries as [|[key value] rest IH]; cbn [existsb snd];
    [discriminate|].
  intros H. apply orb_true_iff in H as [H|H]; apply orb_true_iff.
  - left. destruct value; try discriminate.
    cbn [is_dict_with] in H. cbn [Spec.key_anywhere]. now rewrite H.
  - right. now apply IH.
Qed.

(** When the adapter's [has] answers true, some Mapping of the tree has the
    key: the search errs only by missing keys. *)
Lemma has_true_is_sound k (self : JsonParser.t) :
  has self k = Ok true -> Spec.key_anywhere k (parsed_content self) = true.
Proof.
  unfold has. destruct (parsed_content self) as [| | | | | |entries];
    try discriminate.
  rewrite _search_dict. intros [= Hfound].
  now apply found_within_two_levels_anywhere.
Qed.
End SearchFacts.

(** ** The facade over the JSON adapter *)

Module FacadeFacts.

Section OverJson.
Context {J : JsonModule}.
Variable parse_value : pyobj -> result pyobj.
Implicit Types (self : ConfigFile.t JsonParser.t) (key : string).

(** [set] and [delete] reach the [pass] bodies: nothing changes. *)
Lemma set_is_no_op self key value :
  ConfigFile.set self key value = (Ok tt, self).
Proof. destruct self. reflexivity. Qed.

Lemma delete_is_no_op self key :
  ConfigFile.delete self key = (Ok tt, self).
Proof. destruct self. reflexivity. Qed.

(** [get] hands back the [None] of the [pass] body, whatever the key,
    the tree and the [default]. *)
Lemma get_is_None self key default :
  ConfigFile.get parse_value self key false None default
  = (Ok (Plain JNull), self).
Proof. destruct self. reflexivity. Qed.

(** Every call of [has] through the facade stops at the argument
    binding. *)
Lemma has_raises_TypeError self key wild :
  ConfigFile.has self key wild
  = Raise (TypeError "has() got an unexpected keyword argument").
Proof. reflexivity. Qed.
End OverJson.

Section OverAnyAdapter.
Context {P : Type} {A : Adapter P}.
Variable parse_value : pyobj -> result pyobj.
Implicit Types (self : ConfigFile.t P) (key : string).

(** When the adapter raises [ParsingError], [get] returns its [default]
    argument unless that argument is the object [type(Default)]; with no
    default supplied it returns the [Default(None)] marker itself. *)
Lemma get_returns_default_on_ParsingError self key error p default :
  adapter_get (ConfigFile.parser self) key = (Raise (ParsingError error), p) ->
  is_type_of_Default default = false ->
  fst (ConfigFile.get parse_value self key false None default) = Ok default.
Proof.
  intros Hget Hdefault. unfold ConfigFile.get.
  rewrite Hget, Hdefault. reflexivity.
Qed.

(** Any other exception of the adapter passes through [get]. *)
Lemma get_passes_other_exceptions self key e p default :
  adapter_get (ConfigFile.parser self) key = (Raise e, p) ->
  (forall error, e <> ParsingError error) ->
  fst (ConfigFile.get parse_value self key false None default) = Raise e.
Proof.
  intros Hget Hother. unfold ConfigFile.get. rewrite Hget.
  destruct e; try reflexivity. exfalso. exact (Hother e eq_refl).
Qed.
End OverAnyAdapter.

(** The adapter that reports every key as missing: [get] without a default
    does not fail, it returns the marker. *)
Example get_missing_key_without_default :
  fst (@ConfigFile.get unit Sample.missing_key_adapter (fun o => Ok o)
         (ConfigFile.Build "settings.ini" tt) "absent.key" false None
         unset_default)
  = Ok unset_default.
Proof. reflexivity. Qed.

End FacadeFacts.

(** ** Restoring the original file *)

Module RestoreFacts.
Import ConfigFilePath.

Lemma split_ext_append p stem ext :
  split_ext p = Some (stem, ext) -> p = String.append stem ext.
Proof.
  revert stem ext. induction p as [|c rest IH]; intros stem ext; cbn [split_ext];
    [discriminate|].
  destruct (split_ext rest) as [[stem' ext']|].
  - intros [= <- <-].
    change (String c rest = String c (String.append stem' ext')).
    f_equal. now apply IH.
  - destruct (Ascii.eqb c "."%char); [|discriminate].
    intros [= <- <-]. reflexivity.
Qed.

Lemma length_append (a b : string) :
  String.length (String.append a b) = String.length a + String.length b.
Proof.
  induction a as [|c a IH]; [reflexivity|].
  change (S (String.length (String.append a b))
          = S (String.length a + String.length b)).
  now rewrite IH.
Qed.

(** The computed original is never the configuration file itself. *)
Lemma original_path_differs p : original_path p <> p.
Proof.
  intros Heq. apply (f_equal String.length) in Heq. revert Heq.
  unfold original_path. destruct (split_ext p) as [[stem ext]|] eqn:Hsplit.
  - apply split_ext_append in Hsplit. subst p.
    rewrite !length_append. cbn. lia.
  - rewrite length_append. cbn. lia.
Qed.

Section OverAnyAdapter.
Context {P : Type} {A : Adapter P}.
Implicit Types (self : ConfigFile.t P) (fs : filesystem).

(** A supplied path with no file behind it: [FileNotFoundError], and
    neither the file system nor the tree is touched. *)
Lemma restore_original_missing_argument self p fs :
  truthy_path (Some p) = true ->
  exists_ p fs = false ->
  ConfigFile.restore_original self (Some p) fs
  = (Raise (FileNotFoundError p), (self, fs)).
Proof.
  intros Htruthy Hmissing. unfold ConfigFile.restore_original.
  cbn [default]. rewrite Htruthy. cbn [default option_rect].
  unfold default. cbn. rewrite Hmissing. reflexivity.
Qed.

(** No sibling original: [FileNotFoundError], nothing touched, whether
    or not an existing file was supplied. *)
Lemma restore_original_missing_sibling self arg fs :
  truthy_path arg && negb (exists_ (default "" arg) fs) = false ->
  fs !! original_path (ConfigFile.path self) = None ->
  ConfigFile.restore_original self arg fs
  = (Raise (FileNotFoundError (original_path (ConfigFile.path self))),
     (self, fs)).
Proof.
  intros Hguard Hmissing. unfold ConfigFile.restore_original.
  rewrite Hguard. unfold validate, exists_. rewrite Hmissing. reflexivity.
Qed.

(** Otherwise the text of the sibling original replaces the text of the
    configuration file, and the adapter is reset with that text. *)
Lemma restore_original_copies_sibling self arg fs text old :
  truthy_path arg && negb (exists_ (default "" arg) fs) = false ->
  fs !! original_path (ConfigFile.path self) = Some text ->
  fs !! ConfigFile.path self = Some old ->
  ConfigFile.restore_original self arg fs
  = (fst (adapter_reset_internal_contents (ConfigFile.parser self) text),
     (ConfigFile.with_parser self
        (snd (adapter_reset_internal_contents (ConfigFile.parser self) text)),
      <[ConfigFile.path self := text]> (delete (ConfigFile.path self) fs))).
Proof.
  intros Hguard Hsibling Hcurrent. unfold ConfigFile.restore_original.
  rewrite Hguard. unfold validate, unlink, contents, copyfile, exists_.
  rewrite Hsibling, Hcurrent.
  pose proof (original_path_differs (ConfigFile.path self)) as Hne.
  destruct (String.eqb_spec (original_path (ConfigFile.path self))
              (ConfigFile.path self)) as [Heq|_]; [contradiction|].
  rewrite lookup_delete_ne by (intros Heq; apply Hne; now symmetry).
  rewrite Hsibling, lookup_insert_eq.
  destruct (adapter_reset_internal_contents (ConfigFile.parser self) text).
  reflexivity.
Qed.
End OverAnyAdapter.

End RestoreFacts.

(** ** The reference for Python's [json] module *)

Module PyJsonFacts.
Import PyJson PyJsonDomain.

Lemma delimited_not_digit c k : delimited (String c k) = true -> is_digit c = false.
Proof.
  cbn [delimited]. intros H.
  repeat (apply orb_true_iff in H as [H|H]); apply Ascii.eqb_eq in H; subst;
    reflexivity.
Qed.

Lemma span_digits_prepend s k :
  delimited k = true ->
  span_digits (prepend s k)
  = (fst (span_digits s), prepend (snd (span_digits s)) k).
Proof.
  intros Hk. induction s as [|c s IH]; cbn [prepend span_digits].
  - destruct k as [|c k]; [reflexivity|].
    cbn [span_digits]. now rewrite (delimited_not_digit c k Hk).
  - destruct (is_digit c); [|reflexivity].
    rewrite IH. destruct (span_digits s). reflexivity.
Qed.

Lemma lex_integer_prepend s k :
  delimited k = true ->
  lex_integer (prepend s k)
  = match lex_integer s with
    | Some (ds, rest) => Some (ds, prepend rest k)
    | None => None
    end.
Proof.
  intros Hk. destruct s as [|c s]; cbn [prepend lex_integer].
  - destruct k as [|c k]; [reflexivity|]. cbn [lex_integer].
    pose proof (delimited_not_digit c k Hk) as Hd. rewrite Hd.
    destruct (Ascii.eqb_spec c "0"%char) as [->|_]; [discriminate Hd|reflexivity].
  - destruct (Ascii.eqb c "0"); [reflexivity|].
    destruct (is_digit c); [|reflexivity].
    rewrite (span_digits_prepend s k Hk). destruct (span_digits s). reflexivity.
Qed.

Ltac delimiter_cases H :=
  cbn [delimited] in H;
  repeat (apply orb_true_iff in H as [H|H]);
  apply Ascii.eqb_eq in H; subst.

Lemma lex_frac_prepend s k :
  delimited k = true ->
  lex_frac (prepend s k) = (fst (lex_frac s), prepend (snd (lex_frac s)) k).
Proof.
  intros Hk. destruct s as [|c s]; cbn [prepend lex_frac].
  - destruct k as [|c k]; [reflexivity|]. delimiter_cases Hk; reflexivity.
  - destruct (Ascii.eqb c "."); [|reflexivity].
    rewrite (span_digits_prepend s k Hk).
    destruct (span_digits s) as [[|d ds] rest]; reflexivity.
Qed.

Lemma lex_exp_prepend s k :
  delimited k = true ->
  lex_exp (prepend s k) = (fst (lex_exp s), prepend (snd (lex_exp s)) k).
Proof.
  intros Hk. destruct s as [|c s]; cbn [prepend lex_exp].
  - destruct k as [|c k]; [reflexivity|]. delimiter_cases Hk; reflexivity.
  - destruct (Ascii.eqb c "e" || Ascii.eqb c "E"); [|reflexivity].
    destruct s as [|sg s]; cbn [prepend].
    + destruct k as [|d k]; [reflexivity|]. delimiter_cases Hk; reflexivity.
    + destruct (is_sign sg).
      * rewrite (span_digits_prepend s k Hk).
        destruct (span_digits s) as [[|d ds] rest]; reflexivity.
      * change (String sg (prepend s k)) with (prepend (String sg s) k).
        rewrite (span_digits_prepend (String sg s) k Hk).
        destruct (span_digits (String sg s)) as [[|d ds] rest]; reflexivity.
Qed.

Lemma lex_number_prepend s k :
  delimited k = true ->
  lex_number (prepend s k)
  = match lex_number s with
    | Some (token, rest) => Some (token, prepend rest k)
    | None => None
    end.
Proof.
  intros Hk. unfold lex_number.
  assert (Hsign :
    (match prepend s k with
     | String c rest => if Ascii.eqb c "-" then (true, rest) else (false, prepend s k)
     | EmptyString => (false, prepend s k)
     end)
    = (let (negative, s1) :=
         match s with
         | String c rest => if Ascii.eqb c "-" then (true, rest) else (false, s)
         | EmptyString => (false, s)
         end in
       (negative, prepend s1 k))).
  { destruct s as [|c s]; cbn [prepend].
    - destruct k as [|c k]; [reflexivity|]. delimiter_cases Hk; reflexivity.
    - destruct (Ascii.eqb c "-"); reflexivity. }
  rewrite Hsign.
  destruct (match s with
            | String c rest => if Ascii.eqb c "-" then (true, rest) else (false, s)
            | EmptyString => (false, s)
            end) as [negative s1].
  rewrite (lex_integer_prepend s1 k Hk).
  destruct (lex_integer s1) as [[ds s2]|]; [|reflexivity].
  rewrite (lex_frac_prepend s2 k Hk).
  destruct (lex_frac s2) as [frac s3]. cbn [fst snd].
  rewrite (lex_exp_prepend s3 k Hk).
  destruct (lex_exp s3) as [exp s4]. cbn [fst snd].
  destruct frac, exp; reflexivity.
Qed.

(** *** Integers *)

Lemma span_digits_string_of_uint u :
  span_digits (NilEmpty.string_of_uint u)
  = (NilEmpty.string_of_uint u, EmptyString).
Proof.
  induction u; cbn [NilEmpty.string_of_uint span_digits]; [reflexivity|..];
    (change (is_digit _) with true; cbv iota; now rewrite IHu).
Qed.

Lemma to_uint_normal n : unorm (N.to_uint n) = N.to_uint n.
Proof.
  rewrite <- (DecimalN.Unsigned.to_of (N.to_uint n)).
  now rewrite DecimalN.Unsigned.of_to.
Qed.

Lemma lex_integer_normal u :
  unorm u = u ->
  lex_integer (NilEmpty.string_of_uint u)
  = Some (NilEmpty.string_of_uint u, EmptyString).
Proof.
  intros Hnorm. destruct u;
    cbn [NilEmpty.string_of_uint lex_integer];
    try (change (Ascii.eqb _ "0") with false; change (is_digit _) with true;
         cbv iota; now rewrite span_digits_string_of_uint).
  - exfalso. now apply (unorm_nonnil Nil).
  - rewrite unorm_D0 in Hnorm.
    assert (Hzero : u = Nil).
    { unfold unorm in Hnorm. destruct (nzhead u) eqn:Hhead;
        try (exfalso; apply (nzhead_nonzero u u); congruence).
      now injection Hnorm. }
    subst u. reflexivity.
Qed.

Lemma lex_number_str_of_N n :
  lex_number (str_of_N n) = Some (IntToken false (str_of_N n), EmptyString).
Proof.
  unfold str_of_N, lex_number.
  pose proof (lex_integer_normal _ (to_uint_normal n)) as Hint.
  pose proof (to_uint_normal n) as Hnorm.
  destruct (N.to_uint n) eqn:Hu;
    try (cbn [NilEmpty.string_of_uint] in *;
         change (Ascii.eqb _ "-") with false; cbv iota;
         rewrite Hint; reflexivity).
Qed.

Lemma N_of_digits_str_of_N n : N_of_digits (str_of_N n) = n.
Proof.
  unfold N_of_digits, str_of_N. rewrite NilEmpty.usu.
  apply DecimalN.Unsigned.of_to.
Qed.

Lemma is_digit_uint c :
  is_digit c = true ->
  forall u, exists u', String c (NilEmpty.string_of_uint u)
                       = NilEmpty.string_of_uint u'
                       /\ (Ascii.eqb c "0" = false -> unorm u' = u').
Proof.
  intros Hc u.
  destruct c as [[] [] [] [] [] [] [] []]; try discriminate Hc;
    first [ exists (D0 u); split; [reflexivity|discriminate]
          | exists (D1 u); split; reflexivity
          | exists (D2 u); split; reflexivity
          | exists (D3 u); split; reflexivity
          | exists (D4 u); split; reflexivity
          | exists (D5 u); split; reflexivity
          | exists (D6 u); split; reflexivity
          | exists (D7 u); split; reflexivity
          | exists (D8 u); split; reflexivity
          | exists (D9 u); split; reflexivity ].
Qed.

Lemma span_digits_uint s ds rest :
  span_digits s = (ds, rest) -> exists u, ds = NilEmpty.string_of_uint u.
Proof.
  revert ds rest. induction s as [|c s IH]; intros ds rest;
    cbn [span_digits].
  - intros [= <- _]. now exists Nil.
  - destruct (is_digit c) eqn:Hc.
    + destruct (span_digits s) as [ds' rest'] eqn:Hs. intros [= <- _].
      destruct (IH ds' rest' eq_refl) as [u ->].
      destruct (is_digit_uint c Hc u) as [u' [Hu' _]]. now exists u'.
    + intros [= <- _]. now exists Nil.
Qed.

(** The digits [NUMBER_RE] takes for the integer part are the decimal
    writing of their value. *)
Lemma lex_integer_canonical s ds rest :
  lex_integer s = Some (ds, rest) -> str_of_N (N_of_digits ds) = ds.
Proof.
  assert (Hcanon : forall u, unorm u = u ->
            str_of_N (N_of_digits (NilEmpty.string_of_uint u))
            = NilEmpty.string_of_uint u).
  { intros u Hnorm. unfold str_of_N, N_of_digits.
    now rewrite NilEmpty.usu, DecimalN.Unsigned.to_of, Hnorm. }
  destruct s as [|c s]; cbn [lex_integer]; [discriminate|].
  destruct (Ascii.eqb c "0") eqn:Hzero.
  - intros [= <- _]. apply Ascii.eqb_eq in Hzero. subst c. reflexivity.
  - destruct (is_digit c) eqn:Hc; [|discriminate].
    destruct (span_digits s) as [ds' rest'] eqn:Hs. intros [= <- _].
    destruct (span_digits_uint s ds' rest' Hs) as [u ->].
    destruct (is_digit_uint c Hc u) as [u' [-> Hnorm]].
    apply Hcanon. now apply Hnorm.
Qed.

(** *** Strings *)

Lemma scanstring_emit_char c rest :
  scanstring (emit_char c rest) = scan_map (String c) (scanstring rest).
Proof.
  destruct c as [[] [] [] [] [] [] [] []]; reflexivity.
Qed.

Lemma scanstring_emit_chars s k :
  scanstring (emit_chars s (String quote k)) = Scanned s k.
Proof.
  induction s as [|c s IH]; cbn [emit_chars]; [reflexivity|].
  now rewrite scanstring_emit_char, IH.
Qed.

(** *** First characters *)

Lemma lex_number_head s token rest :
  lex_number s = Some (token, rest) -> number_head s = true.
Proof.
  unfold lex_number. destruct s as [|c s]; [discriminate|].
  cbn [number_head]. destruct (Ascii.eqb c "-") eqn:Hminus;
    [intros _; apply orb_true_r|].
  cbn [lex_integer]. destruct (Ascii.eqb c "0") eqn:Hzero.
  - apply Ascii.eqb_eq in Hzero. subst c. reflexivity.
  - destruct (is_digit c); [reflexivity|discriminate].
Qed.

Lemma number_head_cases s :
  number_head s = true ->
  exists c rest, s = String c rest
    /\ Ascii.eqb c quote = false /\ Ascii.eqb c "{" = false
    /\ Ascii.eqb c "[" = false /\ Ascii.eqb c "n" = false
    /\ Ascii.eqb c "t" = false /\ Ascii.eqb c "f" = false
    /\ is_ws c = false /\ Ascii.eqb c "]" = false
    /\ Ascii.eqb c "}" = false.
Proof.
  destruct s as [|c s]; [discriminate|]. cbn [number_head]. intros Hc.
  exists c, s. split; [reflexivity|].
  destruct c as [[] [] [] [] [] [] [] []]; try discriminate Hc;
    repeat split.
Qed.

Lemma scan_once_number {F : FloatText} d s :
  number_head s = true -> scan_once (S d) s = scan_number s.
Proof.
  intros Hs.
  destruct (number_head_cases s Hs)
    as (c & rest & -> & Hq & Hbrace & Hbracket & Hn & Ht & Hf & _).
  cbn [scan_once strip_prefix]. rewrite Hq, Hbrace, Hbracket.
  rewrite (Ascii.eqb_sym "n" c), (Ascii.eqb_sym "t" c), (Ascii.eqb_sym "f" c).
  now rewrite Hn, Ht, Hf.
Qed.

Lemma number_head_value_head s : number_head s = true -> value_head s = true.
Proof.
  intros Hs.
  destruct (number_head_cases s Hs)
    as (c & rest & -> & _ & _ & _ & _ & _ & _ & Hws & Hbracket & Hbrace).
  cbn [value_head]. now rewrite Hws, Hbracket, Hbrace.
Qed.

Lemma value_head_skip_ws s : value_head s = true -> skip_ws s = s.
Proof.
  destruct s as [|c s]; [discriminate|]. cbn [value_head skip_ws].
  destruct (is_ws c); [discriminate|reflexivity].
Qed.

Lemma number_head_prepend s k :
  number_head s = true -> number_head (prepend s k) = true.
Proof. destruct s; [discriminate|]. trivial. Qed.

Lemma number_head_str_of_N n : number_head (str_of_N n) = true.
Proof.
  apply (lex_number_head _ _ _ (lex_number_str_of_N n)).
Qed.
End PyJsonFacts.

Module PyJsonRoundTrip.
Import PyJson PyJsonDomain PyJsonFacts.

(** *** Dictionaries built from pairs *)

Lemma setitem_fresh {V : Type} (d : list (string * V)) k v :
  ~ In k (Dict.keys d) -> Dict.setitem d k v = d ++ [(k, v)].
Proof.
  induction d as [|[k0 v0] d IH]; cbn [Dict.setitem Dict.keys map fst app];
    [reflexivity|].
  intros Hfresh. destruct (String.eqb_spec k k0) as [->|Hne].
  - exfalso. apply Hfresh. now left.
  - f_equal. apply IH. intros Hin. apply Hfresh. now right.
Qed.

Lemma fold_setitem_wf (l acc : list (string * json)) :
  Dict.wf (acc ++ l) ->
  fold_left (fun d kv => Dict.setitem d (fst kv) (snd kv)) l acc = acc ++ l.
Proof.
  revert acc. induction l as [|[k v] l IH]; intros acc Hwf; cbn [fold_left].
  - now rewrite app_nil_r.
  - cbn [fst snd]. rewrite setitem_fresh.
    + rewrite IH; rewrite <- app_assoc; [reflexivity|exact Hwf].
    + unfold Dict.wf, Dict.keys in Hwf. rewrite map_app in Hwf.
      apply NoDup_app in Hwf as (_ & Hdisjoint & _).
      intros Hin. apply list_elem_of_In in Hin.
      apply (Hdisjoint k Hin). cbn. left.
Qed.

Lemma dict_of_pairs_wf entries :
  Dict.wf entries -> dict_of_pairs entries = entries.
Proof. intros Hwf. apply (fold_setitem_wf entries [] Hwf). Qed.

(** *** Lengths *)

Lemma length_prepend p k :
  String.length (prepend p k) = (String.length p + String.length k)%nat.
Proof. induction p as [|c p IH]; cbn; [reflexivity|]. now rewrite IH. Qed.

Lemma length_emit_char c k :
  (String.length k < String.length (emit_char c k))%nat.
Proof.
  unfold emit_char.
  repeat match goal with
         | |- context [if ?b then _ else _] => destruct b
         end; cbn; lia.
Qed.

Lemma length_emit_chars s k :
  (String.length k <= String.length (emit_chars s k))%nat.
Proof.
  induction s as [|c s IH]; cbn [emit_chars]; [lia|].
  pose proof (length_emit_char c (emit_chars s k)). lia.
Qed.

Section Lengths.
Context {F : FloatText}.

Lemma length_emit_items (items : list json) k :
  Forall (fun x => forall k', (String.length k' <= String.length (emit x k'))%nat)
    items ->
  (length items + String.length k < String.length (emit_items emit items k))%nat.
Proof.
  induction 1 as [|x items Hx _ IH]; cbn [emit_items length String.length];
    [lia|].
  specialize (Hx (emit_items emit items k)). lia.
Qed.

Lemma length_emit_pairs (entries : list (string * json)) k :
  Forall (fun kv => forall k',
            (String.length k' <= String.length (emit (snd kv) k'))%nat)
    entries ->
  (length entries + String.length k
   < String.length (emit_pairs emit entries k))%nat.
Proof.
  induction 1 as [|kv entries Hkv _ IH];
    cbn [emit_pairs length String.length]; [lia|].
  unfold emit_pair, emit_string. cbn [String.length].
  pose proof (length_emit_chars (fst kv)
                (String quote (String ":" (String " "
                   (emit (snd kv) (emit_pairs emit entries k)))))) as Hkey.
  cbn [String.length] in Hkey.
  specialize (Hkv (emit_pairs emit entries k)). lia.
Qed.

Lemma length_emit (t : json) :
  forall k, (String.length k <= String.length (emit t k))%nat.
Proof.
  induction t as [| | | | |items IH|entries IH] using json_nested_ind;
    intros k.
  - cbn. lia.
  - destruct b; cbn; lia.
  - unfold emit, emit_int. destruct n; cbn [String.length];
      rewrite length_prepend; lia.
  - unfold emit, emit_float. destruct f as [| [] | |];
      rewrite length_prepend; lia.
  - cbn [emit]. unfold emit_string. cbn [String.length].
    pose proof (length_emit_chars s (String quote k)) as H.
    cbn [String.length] in H. lia.
  - destruct items as [|x items]; cbn [emit String.length]; [lia|].
    apply Forall_cons in IH as [Hx Hitems].
    pose proof (length_emit_items items k Hitems).
    specialize (Hx (emit_items emit items k)). lia.
  - destruct entries as [|kv entries]; cbn [emit String.length]; [lia|].
    apply Forall_cons in IH as [Hkv Hentries].
    pose proof (length_emit_pairs entries k Hentries).
    unfold emit_pair, emit_string. cbn [String.length].
    pose proof (length_emit_chars (fst kv)
                  (String quote (String ":" (String " "
                     (emit (snd kv) (emit_pairs emit entries k)))))) as Hkey.
    cbn [String.length] in Hkey.
    specialize (Hkv (emit_pairs emit entries k)). lia.
Qed.
End Lengths.

(** *** Reading back what was written *)

Section RoundTrip.
Context {F : FloatText}.
Hypothesis Hfloats : float_text_faithful.

Lemma lex_number_minus s :
  number_head s = true ->
  (forall rest, s <> String "-" rest) ->
  lex_number (String "-" s)
  = match lex_number s with
    | Some (IntToken _ ds, rest) => Some (IntToken true ds, rest)
    | Some (FloatToken text, rest) => Some (FloatToken (String "-" text), rest)
    | None => None
    end.
Proof.
  intros Hhead Hplain. unfold lex_number.
  change (Ascii.eqb "-" "-") with true. cbv iota.
  destruct s as [|c s]; [discriminate|].
  destruct (Ascii.eqb_spec c "-") as [->|_]; [now elim (Hplain s)|].
  destruct (lex_integer (String c s)) as [[ds s2]|]; [|reflexivity].
  destruct (lex_frac s2) as [frac s3]. destruct (lex_exp s3) as [exp s4].
  destruct frac, exp; reflexivity.
Qed.

Lemma str_of_N_not_minus n rest : str_of_N n <> String "-" rest.
Proof.
  intros Heq. pose proof (lex_number_str_of_N n) as Hlex.
  rewrite Heq in Hlex. unfold lex_number in Hlex.
  change (Ascii.eqb "-" "-") with true in Hlex. cbv iota in Hlex.
  pose proof (lex_integer_normal _ (to_uint_normal n)) as Hint.
  fold (str_of_N n) in Hint. rewrite Heq in Hint. discriminate Hint.
Qed.

Lemma scan_number_nat n k :
  delimited k = true ->
  (String.length (str_of_N n) <= max_int_digits)%nat ->
  scan_number (prepend (str_of_N n) k) = Scanned (JInt (Z.of_N n)) k.
Proof.
  intros Hk Hlen. unfold scan_number.
  rewrite (lex_number_prepend _ k Hk), lex_number_str_of_N.
  cbn [prepend].
  destruct (Nat.ltb_spec max_int_digits (String.length (str_of_N n)));
    [lia|].
  unfold int_value. now rewrite N_of_digits_str_of_N.
Qed.

Lemma scan_number_neg p k :
  delimited k = true ->
  (String.length (str_of_N (Npos p)) <= max_int_digits)%nat ->
  scan_number (String "-" (prepend (str_of_N (Npos p)) k))
  = Scanned (JInt (Zneg p)) k.
Proof.
  intros Hk Hlen. unfold scan_number.
  rewrite lex_number_minus.
  - rewrite (lex_number_prepend _ k Hk), lex_number_str_of_N.
    cbn [prepend].
    destruct (Nat.ltb_spec max_int_digits (String.length (str_of_N (Npos p))));
      [lia|].
    unfold int_value. now rewrite N_of_digits_str_of_N.
  - apply number_head_prepend, number_head_str_of_N.
  - intros rest Heq.
    pose proof (number_head_str_of_N (Npos p)) as Hhead.
    destruct (str_of_N (Npos p)) as [|c s] eqn:Hs; [discriminate|].
    cbn [prepend] in Heq. injection Heq as -> _.
    now apply (str_of_N_not_minus (Npos p) s).
Qed.

Lemma value_head_emit d t k :
  in_domain (S d) t -> value_head (emit t k) = true.
Proof.
  destruct t as [|b|n|f|s|items|entries]; cbn [in_domain emit]; intros Hdom.
  - reflexivity.
  - destruct b; reflexivity.
  - unfold emit_int. destruct n; try reflexivity;
      apply number_head_value_head, number_head_prepend, number_head_str_of_N.
  - unfold emit_float.
    destruct f as [sg|[]| |sg m e]; try reflexivity;
      (destruct (Hdom eq_refl) as [text Htext];
       destruct (Hfloats text) as [Hlex _]; [now rewrite Htext|];
       rewrite Htext in Hlex;
       apply number_head_value_head, number_head_prepend;
       exact (lex_number_head _ _ _ Hlex)).
  - reflexivity.
  - destruct items; reflexivity.
  - destruct entries; reflexivity.
Qed.

Lemma delimited_emit_items (items : list json) k :
  delimited (emit_items emit items k) = true.
Proof. destruct items; reflexivity. Qed.

Lemma delimited_emit_pairs (entries : list (string * json)) k :
  delimited (emit_pairs emit entries k) = true.
Proof. destruct entries; reflexivity. Qed.

Lemma scan_items_emit d items :
  Forall (reads_back d) items ->
  forall x fuel k,
    reads_back d x ->
    (length items < fuel)%nat ->
    scan_items (scan_once d) fuel (emit x (emit_items emit items k))
    = Scanned (x :: items) k.
Proof.
  induction 1 as [|y items Hy _ IH]; intros x fuel k Hx Hfuel;
    (destruct fuel as [|fuel]; [cbn in Hfuel; lia|]);
    cbn [scan_items];
    rewrite (proj1 (Hx _ (delimited_emit_items _ k)));
    cbn [emit_items].
  - reflexivity.
  - change (skip_ws (String "," ?r)) with (String "," r).
    change (Ascii.eqb "," "]") with false.
    change (Ascii.eqb "," ",") with true. cbv iota.
    change (skip_ws (String " " ?r)) with (skip_ws r).
    rewrite (value_head_skip_ws _
               (proj2 (Hy _ (delimited_emit_items items k)))).
    rewrite (IH y fuel k Hy); [reflexivity|cbn in Hfuel; lia].
Qed.

Lemma scan_pairs_emit d entries :
  Forall (fun kv => reads_back d (snd kv)) entries ->
  forall kv fuel k,
    reads_back d (snd kv) ->
    (length entries < fuel)%nat ->
    scan_pairs (scan_once d) fuel
      (emit_chars (fst kv)
         (String quote (String ":" (String " "
            (emit (snd kv) (emit_pairs emit entries k))))))
    = Scanned (kv :: entries) k.
Proof.
  induction 1 as [|kv' entries Hkv' _ IH]; intros [key v] fuel k Hv Hfuel;
    (destruct fuel as [|fuel]; [cbn in Hfuel; lia|]);
    cbn [scan_pairs fst snd] in *;
    rewrite scanstring_emit_chars;
    change (skip_ws (String ":" ?r)) with (String ":" r);
    change (Ascii.eqb ":" ":") with true; cbv iota;
    change (skip_ws (String " " ?r)) with (skip_ws r);
    rewrite (value_head_skip_ws _
               (proj2 (Hv _ (delimited_emit_pairs _ k))));
    rewrite (proj1 (Hv _ (delimited_emit_pairs _ k)));
    cbn [emit_pairs].
  - reflexivity.
  - change (skip_ws (String "," ?r)) with (String "," r).
    change (Ascii.eqb "," "}") with false.
    change (Ascii.eqb "," ",") with true. cbv iota.
    change (skip_ws (String " " ?r)) with (skip_ws r).
    unfold emit_pair, emit_string.
    change (skip_ws (String quote ?r)) with (String quote r).
    change (Ascii.eqb quote quote) with true. cbv iota.
    rewrite (IH kv' fuel k Hkv'); [reflexivity|cbn in Hfuel; lia].
Qed.

Lemma value_head_cases s :
  value_head s = true ->
  exists c rest, s = String c rest /\ Ascii.eqb c "]" = false.
Proof.
  destruct s as [|c s]; [discriminate|]. cbn [value_head]. intros H.
  exists c, s. split; [reflexivity|].
  destruct (Ascii.eqb c "]"); [|reflexivity].
  rewrite andb_false_r in H. discriminate H.
Qed.

(** Every object of the domain reads back from its text, whatever delimiter
    follows. *)
Lemma scan_once_emit d : forall t, in_domain d t -> reads_back d t.
Proof.
  induction d as [|d IH]; intros t Hdom; [contradiction|].
  intros k Hk. split; [|now apply (value_head_emit d)].
  destruct t as [|b|n|f|s|items|entries]; cbn [in_domain] in Hdom.
  - reflexivity.
  - destruct b; reflexivity.
  - cbn [emit]. unfold emit_int. destruct n as [|p|p].
    + rewrite scan_once_number
        by apply number_head_prepend, number_head_str_of_N.
      now apply (scan_number_nat 0).
    + rewrite scan_once_number
        by apply number_head_prepend, number_head_str_of_N.
      now apply (scan_number_nat (Npos p)).
    + rewrite scan_once_number by reflexivity.
      now apply scan_number_neg.
  - cbn [emit]. unfold emit_float.
    destruct f as [sg|[]| |sg m e]; try reflexivity;
      (destruct (Hdom eq_refl) as [text Htext];
       destruct (Hfloats text) as [Hlex Hback]; [now rewrite Htext|];
       rewrite Htext in Hlex, Hback;
       rewrite scan_once_number
         by (apply number_head_prepend; exact (lex_number_head _ _ _ Hlex));
       unfold scan_number;
       rewrite (lex_number_prepend _ k Hk), Hlex; cbn [prepend];
       now rewrite Hback).
  - cbn [emit scan_once]. unfold emit_string.
    change (Ascii.eqb quote quote) with true. cbv iota.
    now rewrite scanstring_emit_chars.
  - destruct items as [|x items]; [reflexivity|].
    apply Forall_cons in Hdom as [Hx Hitems].
    assert (Hreads : Forall (reads_back d) items).
    { eapply Forall_impl; [exact Hitems|]. intros y Hy. now apply IH. }
    cbn [emit scan_once].
    change (Ascii.eqb "[" quote) with false.
    change (Ascii.eqb "[" "{") with false.
    change (Ascii.eqb "[" "[") with true. cbv iota.
    unfold scan_array.
    pose proof (proj2 (IH x Hx _ (delimited_emit_items items k))) as Hhead.
    rewrite (value_head_skip_ws _ Hhead).
    destruct (value_head_cases _ Hhead) as (c & rest & Heq & Hclose).
    rewrite Heq, Hclose, <- Heq.
    rewrite (scan_items_emit d items Hreads x _ k (IH x Hx)); [reflexivity|].
    pose proof (length_emit x (emit_items emit items k)).
    pose proof (length_emit_items items k) as Hlen.
    assert (Hall : Forall (fun x => forall k',
               (String.length k' <= String.length (emit x k'))%nat) items).
    { apply Forall_forall. intros y _. apply length_emit. }
    specialize (Hlen Hall). lia.
  - destruct entries as [|[key v] entries]; [reflexivity|].
    destruct Hdom as [Hwf Hvalues].
    apply Forall_cons in Hvalues as [Hv Hvalues]. cbn [snd] in Hv.
    assert (Hreads : Forall (fun kv => reads_back d (snd kv)) entries).
    { eapply Forall_impl; [exact Hvalues|]. intros kv Hkv. now apply IH. }
    cbn [emit scan_once]. unfold emit_pair, emit_string. cbn [fst snd].
    change (Ascii.eqb "{" quote) with false.
    change (Ascii.eqb "{" "{") with true. cbv iota.
    unfold scan_object.
    change (skip_ws (String quote ?r)) with (String quote r).
    change (Ascii.eqb quote "}") with false.
    change (Ascii.eqb quote quote) with true. cbv iota.
    rewrite (scan_pairs_emit d entries Hreads (key, v) _ k (IH v Hv)).
    + cbn [scan_map]. now rewrite (dict_of_pairs_wf _ Hwf).
    + cbn [String.length].
      pose proof (length_emit_chars key
                    (String quote (String ":" (String " "
                       (emit v (emit_pairs emit entries k)))))) as Hkey.
      cbn [String.length] in Hkey.
      pose proof (length_emit v (emit_pairs emit entries k)).
      pose proof (length_emit_pairs entries k) as Hlen.
      assert (Hall : Forall (fun kv => forall k',
                 (String.length k' <= String.length (emit (snd kv) k'))%nat)
                entries).
      { apply Forall_forall. intros kv _. apply length_emit. }
      specialize (Hlen Hall). lia.
Qed.

(** [loads(dumps(t))] is [t], for every object of the domain. *)
Theorem loads_dumps max_depth t :
  in_domain max_depth t -> loads max_depth (dumps t) = Accepts t.
Proof.
  intros Hdom. unfold loads, dumps.
  destruct (scan_once_emit max_depth t Hdom EmptyString eq_refl)
    as [Hscan Hhead].
  rewrite (value_head_skip_ws _ Hhead), Hscan. reflexivity.
Qed.
End RoundTrip.
End PyJsonRoundTrip.

(** *** What [loads] returns lies in the domain *)

Module PyJsonInvariant.
Import PyJson PyJsonDomain PyJsonFacts.

Lemma scan_map_Scanned {A B : Type} (f : A -> B) (r : scan A) b rest :
  scan_map f r = Scanned b rest -> exists a, r = Scanned a rest /\ b = f a.
Proof.
  destruct r as [a rest'| |]; cbn [scan_map]; try discriminate.
  intros [= <- <-]. now exists a.
Qed.

Lemma lex_number_int s negative ds rest :
  lex_number s = Some (IntToken negative ds, rest) ->
  str_of_N (N_of_digits ds) = ds.
Proof.
  unfold lex_number.
  destruct (match s with
            | String c rest0 =>
                if Ascii.eqb c "-" then (true, rest0) else (false, s)
            | EmptyString => (false, s)
            end) as [sign s1].
  destruct (lex_integer s1) as [[ds' s2]|] eqn:Hint; [|discriminate].
  destruct (lex_frac s2) as [frac s3]. destruct (lex_exp s3) as [exp s4].
  destruct frac, exp; try discriminate. intros [= _ <- _].
  exact (lex_integer_canonical _ _ _ Hint).
Qed.

Lemma Forall_setitem {V : Type} (Q : V -> Prop) (d : list (string * V)) k v :
  Forall (fun kv => Q (snd kv)) d -> Q v ->
  Forall (fun kv => Q (snd kv)) (Dict.setitem d k v).
Proof.
  intros Hd Hv. induction Hd as [|[k0 v0] d Hk0 Hd IH]; cbn [Dict.setitem].
  - now repeat constructor.
  - destruct (String.eqb k k0); constructor; cbn [snd] in *; assumption.
Qed.

Lemma dict_of_pairs_domain (Q : json -> Prop) pairs :
  Forall (fun kv => Q (snd kv)) pairs ->
  Dict.wf (dict_of_pairs pairs)
  /\ Forall (fun kv => Q (snd kv)) (dict_of_pairs pairs).
Proof.
  unfold dict_of_pairs.
  assert (Hgen : forall acc,
             Dict.wf acc -> Forall (fun kv => Q (snd kv)) acc ->
             Forall (fun kv => Q (snd kv)) pairs ->
             Dict.wf (fold_left (fun d kv => Dict.setitem d (fst kv) (snd kv))
                        pairs acc)
             /\ Forall (fun kv => Q (snd kv))
                  (fold_left (fun d kv => Dict.setitem d (fst kv) (snd kv))
                     pairs acc)).
  { induction pairs as [|[k v] pairs IH]; intros acc Hwf Hacc Hpairs;
      cbn [fold_left]; [now split|].
    apply Forall_cons in Hpairs as [Hv Hpairs]. apply IH.
    - now apply DictFacts.wf_setitem.
    - now apply Forall_setitem.
    - exact Hpairs. }
  intros Hpairs. apply Hgen; [apply NoDup_nil_2|constructor|exact Hpairs].
Qed.

Section Invariant.
Context {F : FloatText}.

Lemma scan_items_domain (Q : json -> Prop) (scan_value : string -> scan json) :
  (forall s v rest, scan_value s = Scanned v rest -> Q v) ->
  forall fuel s vs rest,
    scan_items scan_value fuel s = Scanned vs rest -> Forall Q vs.
Proof.
  intros Hvalue. induction fuel as [|fuel IH]; intros s vs rest;
    cbn [scan_items]; [discriminate|].
  destruct (scan_value s) as [v r| |] eqn:Hv; try discriminate.
  destruct (skip_ws r) as [|c r1]; [discriminate|].
  destruct (Ascii.eqb c "]").
  - intros [= <- _]. constructor; [exact (Hvalue s v r Hv)|constructor].
  - destruct (Ascii.eqb c ","); [|discriminate].
    intros Hrest. apply scan_map_Scanned in Hrest as (vs' & Hrest & ->).
    constructor; [exact (Hvalue s v r Hv)|now apply (IH _ _ _ Hrest)].
Qed.

Lemma scan_pairs_domain (Q : json -> Prop) (scan_value : string -> scan json) :
  (forall s v rest, scan_value s = Scanned v rest -> Q v) ->
  forall fuel s pairs rest,
    scan_pairs scan_value fuel s = Scanned pairs rest ->
    Forall (fun kv => Q (snd kv)) pairs.
Proof.
  intros Hvalue. induction fuel as [|fuel IH]; intros s pairs rest;
    cbn [scan_pairs]; [discriminate|].
  destruct (scanstring s) as [key r| |]; try discriminate.
  destruct (skip_ws r) as [|c r1]; [discriminate|].
  destruct (Ascii.eqb c ":"); [|discriminate].
  destruct (scan_value (skip_ws r1)) as [v r2| |] eqn:Hv; try discriminate.
  destruct (skip_ws r2) as [|c2 r3]; [discriminate|].
  destruct (Ascii.eqb c2 "}").
  - intros [= <- _]. constructor; [exact (Hvalue _ v r2 Hv)|constructor].
  - destruct (Ascii.eqb c2 ","); [|discriminate].
    destruct (skip_ws r3) as [|q r4]; [discriminate|].
    destruct (Ascii.eqb q quote); [|discriminate].
    intros Hrest. apply scan_map_Scanned in Hrest as (ps & Hrest & ->).
    constructor; [exact (Hvalue _ v r2 Hv)|now apply (IH _ _ _ Hrest)].
Qed.

Lemma scan_number_domain d s t rest :
  scan_number s = Scanned t rest -> in_domain (S d) t.
Proof.
  unfold scan_number.
  destruct (lex_number s) as [[[negative ds|text] r]|] eqn:Hlex.
  - destruct (Nat.ltb_spec max_int_digits (String.length ds)) as [|Hlen];
      [discriminate|].
    intros [= <- _]. cbn [in_domain].
    assert (Habs : Z.abs_N (int_value negative ds) = N_of_digits ds).
    { unfold int_value. destruct negative.
      - rewrite Zabs2N.inj_opp. apply Zabs2N.id.
      - apply Zabs2N.id. }
    rewrite Habs, (lex_number_int _ _ _ _ Hlex). exact Hlen.
  - intros [= <- _]. cbn [in_domain]. intros _. now exists text.
  - destruct (strip_prefix "NaN" s); [intros [= <- _]; discriminate|].
    destruct (strip_prefix "Infinity" s); [intros [= <- _]; discriminate|].
    destruct (strip_prefix "-Infinity" s); [intros [= <- _]; discriminate|].
    discriminate.
Qed.

Lemma scan_once_domain d :
  forall s t rest, scan_once d s = Scanned t rest -> in_domain d t.
Proof.
  induction d as [|d IH]; intros s t rest; cbn [scan_once]; [discriminate|].
  destruct s as [|c s]; [discriminate|].
  destruct (Ascii.eqb c quote).
  { intros H. apply scan_map_Scanned in H as (str & _ & ->). exact I. }
  destruct (Ascii.eqb c "{").
  { unfold scan_object. destruct (skip_ws s) as [|c1 r1]; [discriminate|].
    destruct (Ascii.eqb c1 "}"); [intros [= <- _]; split; constructor|].
    destruct (Ascii.eqb c1 quote); [|discriminate].
    intros H. apply scan_map_Scanned in H as (pairs & Hpairs & ->).
    cbn [in_domain]. apply dict_of_pairs_domain.
    exact (scan_pairs_domain (in_domain d) (scan_once d) IH _ _ _ _ Hpairs). }
  destruct (Ascii.eqb c "[").
  { unfold scan_array. destruct (skip_ws s) as [|c1 r1]; [discriminate|].
    destruct (Ascii.eqb c1 "]"); [intros [= <- _]; constructor|].
    intros H. apply scan_map_Scanned in H as (vs & Hvs & ->).
    cbn [in_domain].
    exact (scan_items_domain (in_domain d) (scan_once d) IH _ _ _ _ Hvs). }
  destruct (strip_prefix "null" (String c s)); [intros [= <- _]; exact I|].
  destruct (strip_prefix "true" (String c s)); [intros [= <- _]; exact I|].
  destruct (strip_prefix "false" (String c s)); [intros [= <- _]; exact I|].
  apply scan_number_domain.
Qed.

(** Every object [loads] accepts is in the domain. *)
Theorem loads_domain max_depth raw t :
  loads max_depth raw = Accepts t -> in_domain max_depth t.
Proof.
  unfold loads.
  destruct (scan_once max_depth (skip_ws raw)) as [obj rest| |] eqn:Hscan;
    try discriminate.
  destruct (skip_ws rest); [|discriminate]. intros [= <-].
  exact (scan_once_domain _ _ _ _ Hscan).
Qed.
End Invariant.
End PyJsonInvariant.

(** *** Valid JSON is never rejected *)

Module Rfc8259Facts.
Import PyJson PyJsonDomain.

Lemma tolerates_map {A B : Type} (f : A -> B) (r : scan A) rest :
  tolerates r rest -> tolerates (scan_map f r) rest.
Proof.
  intros [->|[a ->]]; [now left|right]. now exists (f a).
Qed.

Lemma string_rest_scanstring s :
  forall rest, Rfc8259.string_rest s = Some rest ->
               tolerates (scanstring s) rest.
Proof.
  remember (String.length s) as n eqn:Hn. revert s Hn.
  induction n as [n IH] using lt_wf_ind. intros s Hn rest.
  destruct s as [|c s]; cbn [Rfc8259.string_rest scanstring]; [discriminate|].
  cbn [String.length] in Hn.
  destruct (Ascii.eqb c quote).
  { intros [= <-]. right. now eexists. }
  destruct (Ascii.eqb c backslash).
  { destruct s as [|e s1]; [discriminate|].
    destruct (Ascii.eqb e "u").
    - destruct s1 as [|h1 [|h2 [|h3 [|h4 s2]]]]; try discriminate.
      destruct (hex4 h1 h2 h3 h4) as [code|]; [|discriminate].
      intros Hrest. destruct (code <? 256)%N; [|now left].
      apply tolerates_map.
      apply (IH (String.length s2)); [cbn [String.length] in Hn; lia| |];
        trivial.
    - destruct (unescape e) as [c'|]; [|discriminate].
      intros Hrest. apply tolerates_map.
      apply (IH (String.length s1)); [cbn [String.length] in Hn; lia| |];
        trivial. }
  destruct (N_of_ascii c <? 32)%N; [discriminate|].
  intros Hrest. apply tolerates_map.
  apply (IH (String.length s)); [lia| |]; trivial.
Qed.

Section Values.
Context {F : FloatText}.
Variable value : string -> option string.
Variable scan_value : string -> scan json.
Hypothesis Hvalue :
  forall s rest, value s = Some rest -> tolerates (scan_value s) rest.

Lemma elements_scan_items :
  forall fuel fuel' s rest,
    Rfc8259.elements value fuel s = Some rest ->
    tolerates (scan_items scan_value fuel' s) rest.
Proof.
  induction fuel as [|fuel IH]; intros fuel' s rest;
    cbn [Rfc8259.elements]; [discriminate|].
  destruct fuel' as [|fuel']; [now left|]. cbn [scan_items].
  destruct (value s) as [r|] eqn:Hs; [|discriminate].
  destruct (Hvalue s r Hs) as [->|[v ->]]; [now left|].
  destruct (skip_ws r) as [|c r1]; [discriminate|].
  destruct (Ascii.eqb c "]").
  { intros [= <-]. right. now eexists. }
  destruct (Ascii.eqb c ","); [|discriminate].
  intros Hrest. apply tolerates_map. now apply (IH fuel').
Qed.

Lemma members_scan_pairs :
  forall fuel fuel' s rest,
    Rfc8259.members value fuel s = Some rest ->
    tolerates (scan_pairs scan_value fuel' s) rest.
Proof.
  induction fuel as [|fuel IH]; intros fuel' s rest;
    cbn [Rfc8259.members]; [discriminate|].
  destruct fuel' as [|fuel']; [now left|]. cbn [scan_pairs].
  destruct (Rfc8259.string_rest s) as [r|] eqn:Hs; [|discriminate].
  destruct (string_rest_scanstring s r Hs) as [->|[key ->]]; [now left|].
  destruct (skip_ws r) as [|c r1]; [discriminate|].
  destruct (Ascii.eqb c ":"); [|discriminate].
  destruct (value (skip_ws r1)) as [r2|] eqn:Hv; [|discriminate].
  destruct (Hvalue _ r2 Hv) as [->|[v ->]]; [now left|].
  destruct (skip_ws r2) as [|c2 r3]; [discriminate|].
  destruct (Ascii.eqb c2 "}").
  { intros [= <-]. right. now eexists. }
  destruct (Ascii.eqb c2 ","); [|discriminate].
  destruct (skip_ws r3) as [|q r4]; [discriminate|].
  destruct (Ascii.eqb q quote); [|discriminate].
  intros Hrest. apply tolerates_map. now apply (IH fuel').
Qed.
End Values.

Section Texts.
Context {F : FloatText}.

Lemma value_scan_once :
  forall fuel depth s rest,
    Rfc8259.value fuel s = Some rest -> tolerates (scan_once depth s) rest.
Proof.
  induction fuel as [|fuel IH]; intros depth s rest;
    cbn [Rfc8259.value]; [discriminate|].
  destruct depth as [|depth]; [now left|]. cbn [scan_once].
  destruct s as [|c s]; [discriminate|].
  destruct (Ascii.eqb c quote).
  { intros Hs. apply tolerates_map. now apply string_rest_scanstring. }
  destruct (Ascii.eqb c "{").
  { unfold scan_object. destruct (skip_ws s) as [|c1 r1]; [discriminate|].
    destruct (Ascii.eqb c1 "}"); [intros [= <-]; right; now eexists|].
    destruct (Ascii.eqb c1 quote); [|discriminate].
    intros Hs. apply tolerates_map.
    apply (members_scan_pairs (Rfc8259.value fuel) (scan_once depth)
             (fun s r => IH depth s r) _ _ _ _ Hs). }
  destruct (Ascii.eqb c "[").
  { unfold scan_array. destruct (skip_ws s) as [|c1 r1]; [discriminate|].
    destruct (Ascii.eqb c1 "]"); [intros [= <-]; right; now eexists|].
    intros Hs. apply tolerates_map.
    apply (elements_scan_items (Rfc8259.value fuel) (scan_once depth)
             (fun s r => IH depth s r) _ _ _ _ Hs). }
  destruct (strip_prefix "null" (String c s));
    [intros [= <-]; right; now eexists|].
  destruct (strip_prefix "true" (String c s));
    [intros [= <-]; right; now eexists|].
  destruct (strip_prefix "false" (String c s));
    [intros [= <-]; right; now eexists|].
  unfold scan_number.
  destruct (lex_number (String c s)) as [[[negative ds|text] r]|];
    [| |discriminate]; intros [= <-].
  - destruct (max_int_digits <? String.length ds)%nat; [now left|].
    right. now eexists.
  - right. now eexists.
Qed.

(** A text of the grammar is accepted by the reference, unless the
    reference does not answer. *)
Theorem valid_not_rejected max_depth raw :
  Rfc8259.valid raw = true -> loads max_depth raw <> Rejects.
Proof.
  unfold Rfc8259.valid, loads.
  destruct (Rfc8259.value (S (String.length raw)) (skip_ws raw))
    as [rest|] eqn:Hvalue; [|discriminate].
  destruct (value_scan_once _ max_depth _ _ Hvalue) as [->|[obj ->]];
    [discriminate|].
  destruct (skip_ws rest); [discriminate|discriminate].
Qed.
End Texts.
End Rfc8259Facts.

(** ** The adapter over a library that follows the reference *)

Module ParseFacts.
Import PyJson PyJsonDomain.

Section OverAgreeingModule.
Context {F : FloatText} {J : JsonModule}.
Variable max_depth : nat.
Hypothesis Hagrees : agrees J max_depth.

(** What [parse] answers where the reference answers. *)
Lemma parse_accepted raw obj :
  loads max_depth raw = Accepts obj -> JsonParser.parse raw = Ok obj.
Proof.
  destruct Hagrees as (Haccepts & _ & _). intros Hloads.
  unfold JsonParser.parse. now rewrite (Haccepts raw obj Hloads).
Qed.

Lemma parse_rejected raw :
  loads max_depth raw = Rejects ->
  exists msg pos,
    JsonParser.parse raw = Raise (ParsingError (JSONDecodeError msg pos)).
Proof.
  destruct Hagrees as (_ & Hrejects & _). intros Hloads.
  destruct (Hrejects raw Hloads) as (msg & pos & Hbad).
  exists msg, pos. unfold JsonParser.parse. now rewrite Hbad.
Qed.

(** A tree [parse] returns for a text the reference covers is the tree the
    reference reads. *)
Lemma parsed_is_accepted raw tree :
  loads max_depth raw <> NotCovered ->
  JsonParser.parse raw = Ok tree ->
  loads max_depth raw = Accepts tree.
Proof.
  intros Hcovered Hparsed.
  destruct (loads max_depth raw) as [obj| |] eqn:Hreference.
  - rewrite (parse_accepted raw obj Hreference) in Hparsed. congruence.
  - destruct (parse_rejected raw Hreference) as (msg & pos & Hbad).
    rewrite Hbad in Hparsed. discriminate Hparsed.
  - contradiction.
Qed.

(** A text on which [parse] fails with [ParsingError] is not in the
    grammar. *)
Lemma ParsingError_not_valid raw :
  loads max_depth raw <> NotCovered ->
  (exists error, JsonParser.parse raw = Raise (ParsingError error)) ->
  Rfc8259.valid raw = false.
Proof.
  intros Hcovered [error Hparse].
  destruct (Rfc8259.valid raw) eqn:Hvalid; [exfalso|reflexivity].
  pose proof (Rfc8259Facts.valid_not_rejected max_depth raw Hvalid)
    as Hkept.
  destruct (loads max_depth raw) as [obj| |] eqn:Hreference.
  - rewrite (parse_accepted raw obj Hreference) in Hparse.
    discriminate Hparse.
  - now apply Hkept.
  - now apply Hcovered.
Qed.

(** What [json.dumps] writes for a tree that was read, [parse] reads back
    as that tree. *)
Lemma parse_dumps_of_accepted raw tree :
  float_text_faithful ->
  loads max_depth raw = Accepts tree ->
  JsonParser.parse (json_dumps tree) = Ok tree.
Proof.
  intros Hfloats Hloaded.
  pose proof (PyJsonInvariant.loads_domain max_depth raw tree Hloaded)
    as Hdomain.
  destruct Hagrees as (_ & _ & Hdumps). rewrite (Hdumps tree Hdomain).
  apply parse_accepted.
  exact (PyJsonRoundTrip.loads_dumps Hfloats max_depth tree Hdomain).
Qed.
End OverAgreeingModule.

(** The floats that all read as [0.0] keep Python's promise. *)
Lemma zero_floats_faithful :
  @float_text_faithful PyJsonModule.zero_floats.
Proof. intros text f _. split; reflexivity. Qed.

(** The reference, taken as the module, agrees with itself. *)
Lemma of_reference_agrees (F : FloatText) (max_depth : nat) :
  agrees (PyJsonModule.of_reference F max_depth) max_depth.
Proof.
  repeat split.
  - intros raw obj Hloads. cbn [json_loads PyJsonModule.of_reference].
    now rewrite Hloads.
  - intros raw Hloads. cbn [json_loads PyJsonModule.of_reference].
    rewrite Hloads. now eexists _, _.
Qed.

(** A text of the grammar is read as its tree, and written back as itself. *)
Example plain_text_is_read :
  Rfc8259.valid PyJsonModule.plain_text = true
  /\ @loads PyJsonModule.zero_floats 8 PyJsonModule.plain_text
     = Accepts PyJsonModule.plain_tree
  /\ @dumps PyJsonModule.zero_floats PyJsonModule.plain_tree
     = PyJsonModule.plain_text.
Proof. repeat split; vm_compute; reflexivity. Qed.

(** A text that stops early is not of the grammar, and [parse] fails on it
    with [ParsingError]. *)
Example truncated_text_is_rejected :
  Rfc8259.valid PyJsonModule.truncated_text = false
  /\ @loads PyJsonModule.zero_floats 8 PyJsonModule.truncated_text = Rejects
  /\ exists msg pos,
       @JsonParser.parse
         (PyJsonModule.of_reference PyJsonModule.zero_floats 8)
         PyJsonModule.truncated_text
       = Raise (ParsingError (JSONDecodeError msg pos)).
Proof.
  split; [reflexivity|]. split; [reflexivity|].
  now exists "Expecting value", 0.
Qed.
End ParseFacts.

(** ** The claims *)

(** After any sequence of [get], [set] and [delete] calls the adapter holds
    the tree it started with. *)
Lemma json_adapter_calls_keep_tree (calls : list JsonParser.call)
      (self : JsonParser.t) :
  JsonParser.perform_all self calls = self.
Proof.
  unfold JsonParser.perform_all. revert self.
  induction calls as [|c calls IH]; intros self; [reflexivity|].
  cbn [fold_left]. destruct c; cbn [JsonParser.perform]; apply IH.
Qed.

(** C9. Whatever the key path and the parsed tree, the JSON adapter's [get]
    returns [None] and leaves the tree as it is, and its [set] and [delete]
    return without changing the tree; so the tree is the same after any
    sequence of such calls. *)
Theorem C9_json_adapter_get_set_delete_do_nothing :
  forall (self : JsonParser.t) (section_key : string) (parse_type : bool)
         (value : json),
    JsonParser.get self section_key parse_type = (Ok (Plain JNull), self)
    /\ JsonParser.set self section_key value = (Ok tt, self)
    /\ JsonParser.delete self section_key = (Ok tt, self)
    /\ forall calls,
         JsonParser.parsed_content (JsonParser.perform_all self calls)
         = JsonParser.parsed_content self.
Proof.
  intros self section_key parse_type value. repeat split.
  intros calls. now rewrite json_adapter_calls_keep_tree.
Qed.

(** C1 (the code departs from it). On the JSON adapter, [set("a", 5)]
    followed by [get("a")] returns [None], not [5], and the tree is still
    empty. *)
Theorem C1_json_set_then_get_returns_None :
  forall (J : JsonModule) (parse_value : pyobj -> result pyobj),
    let self := Sample.config_of (JDict []) in
    let after_set := snd (ConfigFile.set self "a" (JInt 5)) in
    fst (ConfigFile.get parse_value after_set "a" false None unset_default)
    = Ok (Plain JNull)
    /\ fst (ConfigFile.get parse_value after_set "a" false None unset_default)
       <> Ok (Plain (JInt 5))
    /\ adapter_parsed_content (ConfigFile.parser after_set) = JDict [].
Proof.
  intros J parse_value self after_set. repeat split. discriminate.
Qed.

(** C2 (the code departs from it). On the JSON adapter with the tree
    [{"a": 1}], the key path [absent.key] does not resolve, and yet
    [get("absent.key", default=7)] returns [None], not [7], and
    [get("absent.key")] returns [None] instead of failing. *)
Theorem C2_json_get_ignores_default_and_never_fails :
  forall (J : JsonModule) (parse_value : pyobj -> result pyobj),
    let self := Sample.config_of Sample.flat_tree in
    Spec.resolves "absent.key" Sample.flat_tree = false
    /\ fst (ConfigFile.get parse_value self "absent.key" false None
              (Plain (JInt 7))) = Ok (Plain JNull)
    /\ fst (ConfigFile.get parse_value self "absent.key" false None
              unset_default) = Ok (Plain JNull).
Proof. intros J parse_value self. repeat split. Qed.

(** C3 (the code departs from it). On the tree [{"a": {"b": {"c": 1}}}] a
    Mapping holds the key [c], but the adapter's search returns false: the
    answer of the recursive call is dropped, so the third level is never
    reported. Through the facade the call does not reach the search at all:
    [has] of the adapter takes no [wild] keyword. *)
Theorem C3_wild_search_misses_third_level :
  forall (J : JsonModule),
    Spec.exists_ Sample.nested_tree "c" true = true
    /\ JsonParser.has (JsonParser.Build Sample.nested_tree) "c" = Ok false
    /\ ConfigFile.has (Sample.config_of Sample.nested_tree) "c" true
       = Raise (TypeError "has() got an unexpected keyword argument").
Proof. intros J. repeat split. Qed.

(** C4 (the code departs from it). On the tree [{"a": {"b": 1}}] the path
    [b] does not resolve, but the adapter's [has] returns true; the path
    [a.b] resolves, but the adapter's [has] returns false; and the facade's
    [has(key, wild=false)] raises [TypeError] instead of answering. *)
Theorem C4_plain_has_is_not_path_resolution :
  forall (J : JsonModule),
    Spec.exists_ Sample.two_level_tree "b" false = false
    /\ JsonParser.has (JsonParser.Build Sample.two_level_tree) "b" = Ok true
    /\ Spec.exists_ Sample.two_level_tree "a.b" false = true
    /\ JsonParser.has (JsonParser.Build Sample.two_level_tree) "a.b" = Ok false
    /\ ConfigFile.has (Sample.config_of Sample.two_level_tree) "b" false
       = Raise (TypeError "has() got an unexpected keyword argument").
Proof. intros J. repeat split. Qed.

(** C5 (the code departs from it). On the JSON adapter with the tree
    [{"a": 1}], [delete("a")] returns normally and the entry [a] is still
    there; [delete("zz")], whose path does not resolve, returns normally too
    instead of failing. *)
Theorem C5_json_delete_removes_nothing_and_never_fails :
  forall (J : JsonModule),
    let self := Sample.config_of Sample.flat_tree in
    Spec.resolves "a" Sample.flat_tree = true
    /\ ConfigFile.delete self "a" = (Ok tt, self)
    /\ ConfigFile.__getitem__ (snd (ConfigFile.delete self "a")) "a"
       = Ok (JInt 1)
    /\ Spec.resolves "zz" Sample.flat_tree = false
    /\ ConfigFile.delete self "zz" = (Ok tt, self).
Proof. intros J self. repeat split. Qed.

(** C6 (the code departs from it). With an existing file [backup.json]
    passed as the original, [restore_original] copies the sibling
    [config.original.json] over the configuration file, not the file it was
    given; and when there is no sibling it fails with [FileNotFoundError]
    and changes nothing, although the file it was given exists. *)
Theorem C6_restore_original_ignores_supplied_path :
  forall (J : JsonModule),
    let self := Sample.config_of (JList [JInt 0]) in
    Sample.disk !! "backup.json" = Some "[2]"
    /\ snd (snd (ConfigFile.restore_original self (Some "backup.json")
                   Sample.disk)) !! "config.json" = Some "[1]"
    /\ Sample.disk_without_sibling !! "backup.json" = Some "[2]"
    /\ ConfigFile.restore_original self (Some "backup.json")
         Sample.disk_without_sibling
       = (Raise (FileNotFoundError "config.original.json"),
          (self, Sample.disk_without_sibling)).
Proof.
  intros [loads dumps] self. repeat split.
  vm_compute. destruct (loads "[1]"); reflexivity.
Qed.





(** C10. The subscript operators of the facade work on the top-level entries
    of the parsed tree, with the key string taken as it is: [self[key]]
    returns the entry stored under exactly [key] and raises [KeyError] when
    there is none, [self[key] = value] stores under exactly [key] and leaves
    the other entries alone, and [del self[key]] raises [KeyError] on an
    absent key and otherwise removes that entry only. A dotted key is not
    split: on [{"a": {"b": 1}}] the key [a.b] is absent although the path
    resolves, and on [{"a.b": 2, "a": {"b": 1}}] it names the entry [2]. *)
Theorem C10_subscripts_use_top_level_keys_verbatim :
  forall (J : JsonModule) (path : string) (entries : list (string * json))
         (key : string) (value : json),
    let self := ConfigFile.Build path (JsonParser.Build (JDict entries)) in
    (forall v, Dict.lookup key entries = Some v ->
               ConfigFile.__getitem__ self key = Ok v)
    /\ (~ In key (Dict.keys entries) ->
        ConfigFile.__getitem__ self key = Raise (KeyError key))
    /\ (Dict.wf entries ->
        forall v, ConfigFile.__getitem__ self key = Ok v <-> In (key, v) entries)
    /\ (exists self',
           ConfigFile.__setitem__ self key value = (Ok tt, self')
           /\ ConfigFile.__getitem__ self' key = Ok value
           /\ forall other, other <> key ->
                ConfigFile.__getitem__ self' other
                = ConfigFile.__getitem__ self other)
    /\ (~ In key (Dict.keys entries) ->
        ConfigFile.__delitem__ self key = (Raise (KeyError key), self))
    /\ (In key (Dict.keys entries) -> Dict.wf entries ->
        exists self',
          ConfigFile.__delitem__ self key = (Ok tt, self')
          /\ ConfigFile.__getitem__ self' key = Raise (KeyError key)
          /\ forall other, other <> key ->
               ConfigFile.__getitem__ self' other
               = ConfigFile.__getitem__ self other)
    /\ (Spec.resolves "a.b" Sample.two_level_tree = true
        /\ ConfigFile.__getitem__ (Sample.config_of Sample.two_level_tree) "a.b"
           = Raise (KeyError "a.b"))
    /\ (Spec.resolve (Spec.split_key "a.b") Sample.dotted_tree = Some (JInt 1)
        /\ ConfigFile.__getitem__ (Sample.config_of Sample.dotted_tree) "a.b"
           = Ok (JInt 2)).
Proof.
  intros J path entries key value self.
  unfold ConfigFile.__getitem__, ConfigFile.__setitem__, ConfigFile.__delitem__.
  cbn [self ConfigFile.parser adapter_parsed_content JsonParser_adapter
       JsonParser.parsed_content adapter_store_parsed_content
       ConfigFile.with_parser].
  unfold Dict.getitem, Dict.delitem.
  repeat apply conj.
  - intros v ->. reflexivity.
  - intros Habsent. now rewrite (DictFacts.lookup_absent_keys _ _ Habsent).
  - intros Hwf v. split.
    + destruct (Dict.lookup key entries) eqn:Hl; [|discriminate].
      intros [= ->]. now apply DictFacts.lookup_In.
    + intros Hin. now rewrite (DictFacts.In_lookup _ _ _ Hwf Hin).
  - eexists. split; [reflexivity|]. cbn. split.
    + now rewrite DictFacts.lookup_setitem_eq.
    + intros other Hne. now rewrite DictFacts.lookup_setitem_ne.
  - intros Habsent. destruct (Dict.contains key entries) eqn:Hc; [|reflexivity].
    exfalso. apply Habsent. now apply DictFacts.contains_keys.
  - intros Hpresent Hwf. apply DictFacts.contains_keys in Hpresent.
    rewrite Hpresent. eexists. split; [reflexivity|]. cbn. split.
    + now rewrite DictFacts.lookup_remove_eq.
    + intros other Hne. now rewrite DictFacts.lookup_remove_ne.
  - reflexivity.
  - reflexivity.
  - reflexivity.
  - reflexivity.
Qed.

(** * Further properties of the code *)

(** ** More dictionary laws *)

Module DictMore.
Import Dict.

Section Laws.
Context {V : Type}.
Implicit Types (d : list (string * V)) (k : string) (v : V).

Lemma contains_setitem_eq k v d : contains k (setitem d k v) = true.
Proof.
  rewrite DictFacts.contains_lookup, DictFacts.lookup_setitem_eq. reflexivity.
Qed.

Lemma setitem_setitem k v1 v2 d :
  setitem (setitem d k v1) k v2 = setitem d k v2.
Proof.
  induction d as [|[k0 v0] d IH]; cbn [setitem].
  - now rewrite String.eqb_refl.
  - destruct (String.eqb k k0) eqn:E; cbn [setitem]; rewrite E;
      [reflexivity|]. now rewrite IH.
Qed.

Lemma remove_setitem_fresh k v d :
  contains k d = false -> remove k (setitem d k v) = d.
Proof.
  induction d as [|[k0 v0] d IH]; cbn [contains setitem remove].
  - now rewrite String.eqb_refl.
  - destruct (String.eqb k k0) eqn:E; [discriminate|].
    intros Hfresh. cbn [remove]. rewrite E. now rewrite IH.
Qed.

Lemma filter_absent k d :
  ~ In k (keys d) ->
  List.filter (fun kv => negb (String.eqb k (fst kv))) d = d.
Proof.
  induction d as [|[k0 v0] d IH]; cbn [List.filter keys map fst];
    [reflexivity|].
  intros Habsent. destruct (String.eqb_spec k k0) as [->|Hne].
  - exfalso. apply Habsent. now left.
  - cbn [negb]. f_equal. apply IH. intros Hin. apply Habsent. now right.
Qed.

Lemma remove_filter k d :
  wf d -> remove k d = List.filter (fun kv => negb (String.eqb k (fst kv))) d.
Proof.
  unfold wf, keys.
  induction d as [|[k0 v0] d IH]; cbn [remove List.filter map fst];
    [reflexivity|].
  intros Hnd. apply NoDup_cons in Hnd as [Hfresh Hrest].
  destruct (String.eqb_spec k k0) as [->|Hne]; cbn [negb].
  - symmetry. apply filter_absent. intros Hin. apply Hfresh.
    now apply list_elem_of_In.
  - f_equal. now apply IH.
Qed.

Lemma contains_Permutation k d d' :
  Permutation d d' -> contains k d = contains k d'.
Proof.
  intros Hperm. apply eq_true_iff_eq. rewrite !DictFacts.contains_keys.
  unfold keys. split; apply Permutation_in; apply Permutation_map;
    [exact Hperm|symmetry; exact Hperm].
Qed.
End Laws.

Lemma existsb_Permutation {A : Type} (f : A -> bool) (l l' : list A) :
  Permutation l l' -> existsb f l = existsb f l'.
Proof.
  intros Hperm. apply eq_true_iff_eq. rewrite !existsb_exists.
  split; intros [x [Hin Hfx]]; exists x; split; try exact Hfx.
  - now apply (Permutation_in _ Hperm).
  - apply Permutation_sym in Hperm. now apply (Permutation_in _ Hperm).
Qed.

End DictMore.

(** ** The adapter's search *)

(** X1. On a parsed object, the adapter's [has] returns a boolean, and it is
    true exactly when the key is a key of the object itself or of an object
    that is directly one of its values; keys further down, or inside arrays,
    are not found. *)
Theorem has_finds_keys_within_two_levels :
  forall (entries : list (string * json)) (k : string),
  exists b,
    JsonParser.has (JsonParser.Build (JDict entries)) k = Ok b
    /\ (b = true <->
        In k (Dict.keys entries)
        \/ exists key inner,
             In (key, JDict inner) entries /\ In k (Dict.keys inner)).
Proof.
  intros entries k. exists (found_within_two_levels k entries). split.
  - apply SearchFacts._search_dict.
  - unfold found_within_two_levels.
    rewrite orb_true_iff, DictFacts.contains_keys, existsb_exists.
    split; (intros [Htop|Hnested]; [left; exact Htop|right]).
    + destruct Hnested as [[key value] [Hin Hdict]].
      destruct value as [| | | | | |inner]; try discriminate.
      exists key, inner. split; [exact Hin|].
      now apply DictFacts.contains_keys.
    + destruct Hnested as [key [inner [Hin Hk]]].
      exists (key, JDict inner). split; [exact Hin|].
      now apply DictFacts.contains_keys.
Qed.

(** X2. When the parsed document is not an object (an array, a string, a
    number, [true], [false] or [null]), the adapter's [has] raises
    [AttributeError] for every key. *)
Theorem has_raises_on_non_object_document :
  forall (self : JsonParser.t) (k : string),
    (forall entries, JsonParser.parsed_content self <> JDict entries) ->
    exists msg, JsonParser.has self k = Raise (AttributeError msg).
Proof.
  intros [tree] k Hnot. cbn [JsonParser.parsed_content] in Hnot.
  unfold JsonParser.has. cbn [JsonParser.parsed_content].
  destruct tree; try (eexists; reflexivity).
  exfalso. exact (Hnot entries eq_refl).
Qed.

Lemma has_raises_on_non_object_document_witness :
  (forall entries,
      JsonParser.parsed_content (JsonParser.Build Fixture.list_document)
      <> JDict entries)
  /\ exists msg,
       JsonParser.has (JsonParser.Build Fixture.list_document) "a"
       = Raise (AttributeError msg).
Proof.
  assert (Hnot : forall entries,
             JsonParser.parsed_content (JsonParser.Build Fixture.list_document)
             <> JDict entries) by (intros entries; discriminate).
  split; [exact Hnot|].
  exact (has_raises_on_non_object_document
           (JsonParser.Build Fixture.list_document) "a" Hnot).
Defined.

(** X3. The answer of the adapter's [has] does not depend on the order in
    which the entries of the object were inserted. *)
Theorem has_ignores_insertion_order :
  forall (entries entries' : list (string * json)) (k : string),
    Permutation entries entries' ->
    JsonParser.has (JsonParser.Build (JDict entries)) k
    = JsonParser.has (JsonParser.Build (JDict entries')) k.
Proof.
  intros entries entries' k Hperm. unfold JsonParser.has.
  cbn [JsonParser.parsed_content]. rewrite !SearchFacts._search_dict.
  unfold found_within_two_levels.
  rewrite (DictMore.contains_Permutation k _ _ Hperm).
  rewrite (DictMore.existsb_Permutation _ _ _ Hperm). reflexivity.
Qed.

Lemma has_ignores_insertion_order_witness :
  Permutation Fixture.unordered_tree Fixture.reordered_tree
  /\ JsonParser.has (JsonParser.Build (JDict Fixture.unordered_tree)) "x"
     = JsonParser.has (JsonParser.Build (JDict Fixture.reordered_tree)) "x".
Proof.
  assert (Hperm : Permutation Fixture.unordered_tree Fixture.reordered_tree)
    by apply perm_swap.
  split; [exact Hperm|].
  exact (has_ignores_insertion_order Fixture.unordered_tree
           Fixture.reordered_tree "x" Hperm).
Defined.

(** X4. After [self[key] = value] on a parsed object, the adapter's [has]
    answers true for that key. *)
Theorem has_after_setitem :
  forall (J : JsonModule) (path : string) (entries : list (string * json))
         (key : string) (value : json),
    let self := ConfigFile.Build path (JsonParser.Build (JDict entries)) in
    JsonParser.has
      (ConfigFile.parser (snd (ConfigFile.__setitem__ self key value))) key
    = Ok true.
Proof.
  intros J path entries key value self. cbn.
  change (JsonParser._search (JDict (Dict.setitem entries key value)) key
          = Ok true).
  rewrite SearchFacts._search_dict. unfold found_within_two_levels.
  now rewrite DictMore.contains_setitem_eq.
Qed.

(** ** The subscript operators *)

(** X5. When the parsed document is not an object, [self[key]],
    [self[key] = value] and [del self[key]] all raise [TypeError], and the
    facade is left as it was. *)
Theorem subscripts_raise_on_non_object_document :
  forall (J : JsonModule) (path : string) (tree : json) (key : string)
         (value : json),
    (forall entries, tree <> JDict entries) ->
    let self := ConfigFile.Build path (JsonParser.Build tree) in
    (exists msg, ConfigFile.__getitem__ self key = Raise (TypeError msg))
    /\ (exists msg,
           ConfigFile.__setitem__ self key value = (Raise (TypeError msg), self))
    /\ (exists msg,
           ConfigFile.__delitem__ self key = (Raise (TypeError msg), self)).
Proof.
  intros J path tree key value Hnot self.
  unfold ConfigFile.__getitem__, ConfigFile.__setitem__, ConfigFile.__delitem__.
  cbn [self ConfigFile.parser adapter_parsed_content JsonParser_adapter
       JsonParser.parsed_content].
  destruct tree; try (repeat split; eexists; reflexivity).
  exfalso. exact (Hnot entries eq_refl).
Qed.

Lemma subscripts_raise_on_non_object_document_witness :
  (forall entries, Fixture.list_document <> JDict entries)
  /\ exists msg,
       @ConfigFile.__setitem__ _ (@JsonParser_adapter Sample.literal_json)
         (Sample.config_of Fixture.list_document) "a" (JInt 1)
       = (Raise (TypeError msg), Sample.config_of Fixture.list_document).
Proof.
  assert (Hnot : forall entries, Fixture.list_document <> JDict entries)
    by (intros entries; discriminate).
  split; [exact Hnot|].
  exact (proj1 (proj2 (subscripts_raise_on_non_object_document
                         Sample.literal_json "config.json"
                         Fixture.list_document "a" (JInt 1) Hnot))).
Defined.

(** X6. [self[key] = value] keeps the entries in their order: an existing
    key keeps its place, a new key goes to the end. *)
Theorem setitem_keeps_insertion_order :
  forall (J : JsonModule) (path : string) (entries : list (string * json))
         (key : string) (value : json),
    let self := ConfigFile.Build path (JsonParser.Build (JDict entries)) in
    exists entries',
      adapter_parsed_content
        (ConfigFile.parser (snd (ConfigFile.__setitem__ self key value)))
      = JDict entries'
      /\ Dict.keys entries'
         = if Dict.contains key entries then Dict.keys entries
           else Dict.keys entries ++ [key].
Proof.
  intros J path entries key value self.
  exists (Dict.setitem entries key value). split; [reflexivity|].
  apply DictFacts.keys_setitem.
Qed.

(** X7. Assigning twice to the same key leaves the facade as a single
    assignment of the last value would: the last write wins, and repeating
    an assignment changes nothing. *)
Theorem setitem_last_write_wins :
  forall (J : JsonModule) (path : string) (entries : list (string * json))
         (key : string) (first last : json),
    let self := ConfigFile.Build path (JsonParser.Build (JDict entries)) in
    ConfigFile.__setitem__ (snd (ConfigFile.__setitem__ self key first)) key last
    = ConfigFile.__setitem__ self key last.
Proof.
  intros J path entries key first last self.
  unfold ConfigFile.__setitem__.
  cbn [self ConfigFile.parser adapter_parsed_content JsonParser_adapter
       JsonParser.parsed_content adapter_store_parsed_content
       ConfigFile.with_parser snd ConfigFile.path].
  now rewrite DictMore.setitem_setitem.
Qed.

(** X8. For a key the parsed object does not have, [self[key] = value]
    followed by [del self[key]] succeeds and gives back the facade as it
    was, entries and order included. *)
Theorem setitem_then_delitem_restores :
  forall (J : JsonModule) (path : string) (entries : list (string * json))
         (key : string) (value : json),
    ~ In key (Dict.keys entries) ->
    let self := ConfigFile.Build path (JsonParser.Build (JDict entries)) in
    ConfigFile.__delitem__ (snd (ConfigFile.__setitem__ self key value)) key
    = (Ok tt, self).
Proof.
  intros J path entries key value Hfresh self.
  assert (Hc : Dict.contains key entries = false).
  { destruct (Dict.contains key entries) eqn:E; [|reflexivity].
    exfalso. apply Hfresh. now apply DictFacts.contains_keys. }
  unfold ConfigFile.__setitem__, ConfigFile.__delitem__.
  cbn [self ConfigFile.parser adapter_parsed_content JsonParser_adapter
       JsonParser.parsed_content adapter_store_parsed_content
       ConfigFile.with_parser snd ConfigFile.path].
  unfold Dict.delitem.
  rewrite DictMore.contains_setitem_eq, (DictMore.remove_setitem_fresh _ _ _ Hc).
  reflexivity.
Qed.

Lemma setitem_then_delitem_restores_witness :
  ~ In "b" (Dict.keys [("a", JInt 1)])
  /\ @ConfigFile.__delitem__ _ (@JsonParser_adapter Sample.literal_json)
       (snd (@ConfigFile.__setitem__ _ (@JsonParser_adapter Sample.literal_json)
               (Sample.config_of Sample.flat_tree) "b" (JInt 2))) "b"
     = (Ok tt, Sample.config_of Sample.flat_tree).
Proof.
  assert (Hfresh : ~ In "b" (Dict.keys [("a", JInt 1)])).
  { cbn. intros [H|[]]. discriminate H. }
  split; [exact Hfresh|].
  exact (setitem_then_delitem_restores Sample.literal_json "config.json"
           [("a", JInt 1)] "b" (JInt 2) Hfresh).
Defined.

(** X9. [del self[key]] on a key of the parsed object removes that entry and
    nothing else: the other entries stay, in their order. *)
Theorem delitem_removes_only_that_entry :
  forall (J : JsonModule) (path : string) (entries : list (string * json))
         (key : string),
    Dict.wf entries ->
    In key (Dict.keys entries) ->
    let self := ConfigFile.Build path (JsonParser.Build (JDict entries)) in
    ConfigFile.__delitem__ self key
    = (Ok tt,
       ConfigFile.Build path
         (JsonParser.Build
            (JDict (List.filter (fun kv => negb (String.eqb key (fst kv)))
                      entries)))).
Proof.
  intros J path entries key Hwf Hin self.
  unfold ConfigFile.__delitem__.
  cbn [self ConfigFile.parser adapter_parsed_content JsonParser_adapter
       JsonParser.parsed_content adapter_store_parsed_content
       ConfigFile.with_parser ConfigFile.path].
  unfold Dict.delitem. apply DictFacts.contains_keys in Hin. rewrite Hin.
  now rewrite (DictMore.remove_filter _ _ Hwf).
Qed.

Lemma delitem_removes_only_that_entry_witness :
  Dict.wf Fixture.unordered_tree
  /\ In "b" (Dict.keys Fixture.unordered_tree)
  /\ @ConfigFile.__delitem__ _ (@JsonParser_adapter Sample.literal_json)
       (ConfigFile.Build "config.json"
          (JsonParser.Build (JDict Fixture.unordered_tree))) "b"
     = (Ok tt,
        ConfigFile.Build "config.json"
          (JsonParser.Build (JDict [("a", JDict [("x", JInt 1)])]))).
Proof.
  assert (Hwf : Dict.wf Fixture.unordered_tree).
  { unfold Dict.wf. cbn. apply NoDup_cons. split.
    - intros Hin. apply list_elem_of_In in Hin. destruct Hin as [H|[]].
      discriminate H.
    - apply NoDup_singleton. }
  assert (Hin : In "b" (Dict.keys Fixture.unordered_tree)) by (now left).
  split; [exact Hwf|]. split; [exact Hin|].
  exact (delitem_removes_only_that_entry Sample.literal_json "config.json"
           Fixture.unordered_tree "b" Hwf Hin).
Defined.

(** ** The facade's [get] over any adapter *)

(** X10. Called without type parsing and without a return type, [get] never
    raises [ParsingError], whatever the adapter does, unless the caller
    passes the object [type(Default)] as the default: with no default
    supplied a [ParsingError] of the adapter is swallowed as well. *)
Theorem get_never_raises_ParsingError :
  forall (P : Type) (A : Adapter P) (parse_value : pyobj -> result pyobj)
         (self : ConfigFile.t P) (key : string) (default : pyobj),
    is_type_of_Default default = false ->
    forall error,
      fst (ConfigFile.get parse_value self key false None default)
      <> Raise (ParsingError error).
Proof.
  intros P A parse_value self key default Hdefault error.
  unfold ConfigFile.get.
  destruct (adapter_get (ConfigFile.parser self) key) as [outcome p].
  cbn [fst]. destruct outcome as [v|e]; [discriminate|].
  destruct e; try discriminate. rewrite Hdefault. discriminate.
Qed.

Lemma get_never_raises_ParsingError_witness :
  is_type_of_Default unset_default = false
  /\ forall error,
       fst (@ConfigFile.get unit Sample.missing_key_adapter Fixture.parse_seven
              (ConfigFile.Build "settings.ini" tt) "absent.key" false None
              unset_default)
       <> Raise (ParsingError error).
Proof.
  split; [reflexivity|].
  exact (get_never_raises_ParsingError unit Sample.missing_key_adapter
           Fixture.parse_seven (ConfigFile.Build "settings.ini" tt)
           "absent.key" unset_default eq_refl).
Defined.

(** X11. When the adapter raises [ParsingError], [get] treats its [default]
    as if it were the value found: the default goes through [parse_value]
    when type parsing is asked for, and then through the return type. *)
Theorem get_parses_and_casts_the_default :
  forall (P : Type) (A : Adapter P) (parse_value : pyobj -> result pyobj)
         (self : ConfigFile.t P) (key : string) (parse_types : bool)
         (return_type : option (pyobj -> result pyobj)) (default : pyobj)
         (error : exn) (p : P),
    adapter_get (ConfigFile.parser self) key = (Raise (ParsingError error), p) ->
    is_type_of_Default default = false ->
    fst (ConfigFile.get parse_value self key parse_types return_type default)
    = (key_value <- (if parse_types then parse_value default else Ok default) ;;
       match return_type with
       | Some cast => cast key_value
       | None => Ok key_value
       end).
Proof.
  intros P A parse_value self key parse_types return_type default error p
         Hget Hdefault.
  unfold ConfigFile.get. rewrite Hget, Hdefault. reflexivity.
Qed.

Lemma get_parses_and_casts_the_default_witness :
  @adapter_get unit Sample.missing_key_adapter tt "port"
  = (Raise (ParsingError (KeyError "port")), tt)
  /\ is_type_of_Default (Plain (JStr "7")) = false
  /\ fst (@ConfigFile.get unit Sample.missing_key_adapter Fixture.parse_seven
            (ConfigFile.Build "settings.ini" tt) "port" true None
            (Plain (JStr "7")))
     = Ok (Plain (JInt 7)).
Proof.
  split; [reflexivity|]. split; [reflexivity|].
  exact (get_parses_and_casts_the_default unit Sample.missing_key_adapter
           Fixture.parse_seven (ConfigFile.Build "settings.ini" tt) "port"
           true None (Plain (JStr "7")) (KeyError "port") tt eq_refl eq_refl).
Defined.

(** X12. An exception of the adapter that is not a [ParsingError] (a
    [KeyError], say) leaves [get] as it is: the default is not used, and
    neither [parse_value] nor the return type is called. *)
Theorem get_passes_other_exceptions_through :
  forall (P : Type) (A : Adapter P) (parse_value : pyobj -> result pyobj)
         (self : ConfigFile.t P) (key : string) (parse_types : bool)
         (return_type : option (pyobj -> result pyobj)) (default : pyobj)
         (e : exn) (p : P),
    adapter_get (ConfigFile.parser self) key = (Raise e, p) ->
    (forall error, e <> ParsingError error) ->
    fst (ConfigFile.get parse_value self key parse_types return_type default)
    = Raise e.
Proof.
  intros P A parse_value self key parse_types return_type default e p
         Hget Hother.
  unfold ConfigFile.get. rewrite Hget.
  destruct e; try reflexivity. exfalso. exact (Hother e eq_refl).
Qed.

Lemma get_passes_other_exceptions_through_witness :
  @adapter_get unit Fixture.key_error_adapter tt "port"
  = (Raise (KeyError "port"), tt)
  /\ (forall error, KeyError "port" <> ParsingError error)
  /\ fst (@ConfigFile.get unit Fixture.key_error_adapter Fixture.parse_seven
            (ConfigFile.Build "settings.ini" tt) "port" true None
            (Plain (JStr "7")))
     = Raise (KeyError "port").
Proof.
  assert (Hother : forall error, KeyError "port" <> ParsingError error)
    by (intros error; discriminate).
  split; [reflexivity|]. split; [exact Hother|].
  exact (get_passes_other_exceptions_through unit Fixture.key_error_adapter
           Fixture.parse_seven (ConfigFile.Build "settings.ini" tt) "port"
           true None (Plain (JStr "7")) (KeyError "port") tt eq_refl Hother).
Defined.

(** ** Restoring and saving *)

(** X13. [restore_original] reads or writes no file but the configuration
    file: every other file, the original included, holds afterwards what it
    held before, whether the call succeeds or raises. *)
Theorem restore_original_keeps_other_files :
  forall (P : Type) (A : Adapter P) (self : ConfigFile.t P)
         (original_file_path : option string) (fs : filesystem) (p : string),
    p <> ConfigFile.path self ->
    snd (snd (ConfigFile.restore_original self original_file_path fs)) !! p
    = fs !! p.
Proof.
  intros P A self arg fs p Hother. unfold ConfigFile.restore_original.
  destruct (truthy_path arg && negb (ConfigFilePath.exists_ (default "" arg) fs));
    [reflexivity|].
  unfold ConfigFilePath.validate, ConfigFilePath.unlink,
    ConfigFilePath.contents, copyfile.
  destruct (ConfigFilePath.exists_
              (ConfigFilePath.original_path (ConfigFile.path self)) fs);
    [|reflexivity].
  destruct (ConfigFilePath.exists_ (ConfigFile.path self) fs); [|reflexivity].
  destruct (String.eqb (ConfigFilePath.original_path (ConfigFile.path self))
              (ConfigFile.path self)); cbn [snd].
  { now apply lookup_delete_ne. }
  destruct (delete (ConfigFile.path self) fs
              !! ConfigFilePath.original_path (ConfigFile.path self))
    as [text|]; cbn [snd]; [|now apply lookup_delete_ne].
  rewrite lookup_insert_eq.
  destruct (adapter_reset_internal_contents (ConfigFile.parser self) text).
  cbn [snd]. rewrite lookup_insert_ne by (intros Heq; now apply Hother).
  now apply lookup_delete_ne.
Qed.

Lemma restore_original_keeps_other_files_witness :
  "notes.txt" <> ConfigFile.path (Sample.config_of (JList []))
  /\ snd (snd (@ConfigFile.restore_original _
                 (@JsonParser_adapter Sample.literal_json)
                 (Sample.config_of (JList [])) None
                 Fixture.disk_with_empty_original)) !! "notes.txt"
     = Fixture.disk_with_empty_original !! "notes.txt".
Proof.
  assert (Hother : "notes.txt" <> ConfigFile.path (Sample.config_of (JList [])))
    by discriminate.
  split; [exact Hother|].
  exact (restore_original_keeps_other_files _
           (@JsonParser_adapter Sample.literal_json)
           (Sample.config_of (JList [])) None
           Fixture.disk_with_empty_original "notes.txt" Hother).
Defined.

(** The JSON adapter's reset never raises [FileNotFoundError], and it
    keeps the tree when it raises. *)
Lemma json_reset_outcome {J : JsonModule} (parser : JsonParser.t)
      (text : string) :
  fst (JsonParser.reset_internal_contents parser text) = Ok tt
  \/ exists e,
       JsonParser.reset_internal_contents parser text = (Raise e, parser)
       /\ forall msg, e <> FileNotFoundError msg.
Proof.
  unfold JsonParser.reset_internal_contents, JsonParser.parse.
  destruct (json_loads text) as [obj|msg pos|e]; [left; reflexivity|..];
    right; eexists; (split; [reflexivity|]).
  - discriminate.
  - destruct e; discriminate.
Qed.

(** X14. On the JSON adapter, a [restore_original] that raises
    [FileNotFoundError] has changed nothing: the files and the parsed tree
    are as before the call. *)
Theorem restore_original_file_not_found_changes_nothing :
  forall (J : JsonModule) (self : ConfigFile.t JsonParser.t)
         (original_file_path : option string) (fs : filesystem) (msg : string),
    fst (ConfigFile.restore_original self original_file_path fs)
    = Raise (FileNotFoundError msg) ->
    snd (ConfigFile.restore_original self original_file_path fs) = (self, fs).
Proof.
  intros J self arg fs msg.
  destruct (truthy_path arg && negb (ConfigFilePath.exists_ (default "" arg) fs))
    eqn:Hguard.
  { unfold ConfigFile.restore_original. rewrite Hguard. reflexivity. }
  destruct (fs !! ConfigFilePath.original_path (ConfigFile.path self))
    as [text|] eqn:Hsibling.
  2:{ rewrite (RestoreFacts.restore_original_missing_sibling self arg fs
                 Hguard Hsibling). reflexivity. }
  destruct (fs !! ConfigFile.path self) as [old|] eqn:Hcurrent.
  2:{ unfold ConfigFile.restore_original. rewrite Hguard.
      unfold ConfigFilePath.validate, ConfigFilePath.unlink,
        ConfigFilePath.exists_.
      rewrite Hsibling, Hcurrent. reflexivity. }
  rewrite (RestoreFacts.restore_original_copies_sibling self arg fs text old
             Hguard Hsibling Hcurrent).
  cbn [fst snd adapter_reset_internal_contents JsonParser_adapter].
  destruct (json_reset_outcome (ConfigFile.parser self) text)
    as [Hok|(e & He & Hother)].
  - rewrite Hok. discriminate.
  - rewrite He. cbn [fst]. intros [= ->]. now elim (Hother msg).
Qed.

Lemma restore_original_file_not_found_changes_nothing_witness :
  fst (@ConfigFile.restore_original _ (@JsonParser_adapter Sample.literal_json)
         (Sample.config_of (JList [])) (Some "backup.json")
         Sample.disk_without_sibling)
  = Raise (FileNotFoundError "config.original.json")
  /\ snd (@ConfigFile.restore_original _
            (@JsonParser_adapter Sample.literal_json)
            (Sample.config_of (JList [])) (Some "backup.json")
            Sample.disk_without_sibling)
     = (Sample.config_of (JList []), Sample.disk_without_sibling).
Proof.
  assert (Hraised :
            fst (@ConfigFile.restore_original _
                   (@JsonParser_adapter Sample.literal_json)
                   (Sample.config_of (JList [])) (Some "backup.json")
                   Sample.disk_without_sibling)
            = Raise (FileNotFoundError "config.original.json"))
    by (vm_compute; reflexivity).
  split; [exact Hraised|].
  exact (restore_original_file_not_found_changes_nothing Sample.literal_json
           (Sample.config_of (JList [])) (Some "backup.json")
           Sample.disk_without_sibling "config.original.json" Hraised).
Defined.



(** X16. On the JSON adapter, with the configuration file and its sibling
    original both present, restoring a second time changes nothing more:
    the second call has the outcome of the first and leaves the files and
    the parsed tree as the first call left them. *)
Theorem restore_original_twice :
  forall (J : JsonModule) (self : ConfigFile.t JsonParser.t)
         (fs : filesystem) (text old : string),
    fs !! ConfigFilePath.original_path (ConfigFile.path self) = Some text ->
    fs !! ConfigFile.path self = Some old ->
    let once := ConfigFile.restore_original self None fs in
    ConfigFile.restore_original (fst (snd once)) None (snd (snd once)) = once.
Proof.
  intros J [path parser] fs text old Hsibling Hcurrent once. subst once.
  cbn [ConfigFile.path] in Hsibling, Hcurrent.
  pose proof (RestoreFacts.original_path_differs path) as Hne.
  rewrite (RestoreFacts.restore_original_copies_sibling
             (ConfigFile.Build path parser) None fs text old
             eq_refl Hsibling Hcurrent).
  cbn [fst snd ConfigFile.parser ConfigFile.path ConfigFile.with_parser].
  rewrite insert_delete_eq.
  set (reset := adapter_reset_internal_contents parser text).
  assert (Hsibling' :
            <[path := text]> fs !! ConfigFilePath.original_path path
            = Some text).
  { rewrite lookup_insert_ne by (intros Heq; apply Hne; now symmetry).
    exact Hsibling. }
  assert (Hcurrent' : <[path := text]> fs !! path = Some text)
    by apply lookup_insert_eq.
  rewrite (RestoreFacts.restore_original_copies_sibling
             (ConfigFile.Build path (snd reset)) None (<[path := text]> fs)
             text text eq_refl Hsibling' Hcurrent').
  cbn [fst snd ConfigFile.parser ConfigFile.path ConfigFile.with_parser].
  rewrite insert_delete_eq, insert_insert_eq.
  assert (Hagain : adapter_reset_internal_contents (snd reset) text = reset).
  { subst reset.
    cbn [adapter_reset_internal_contents JsonParser_adapter].
    unfold JsonParser.reset_internal_contents.
    destruct (JsonParser.parse text); reflexivity. }
  rewrite Hagain. reflexivity.
Qed.

Lemma restore_original_twice_witness :
  Fixture.disk_with_empty_original !! "config.original.json" = Some "{}"
  /\ Fixture.disk_with_empty_original !! "config.json" = Some "[]"
  /\ @ConfigFile.restore_original _ (@JsonParser_adapter Sample.literal_json)
       (fst (snd (@ConfigFile.restore_original _
                    (@JsonParser_adapter Sample.literal_json)
                    (Sample.config_of (JList [])) None
                    Fixture.disk_with_empty_original)))
       None
       (snd (snd (@ConfigFile.restore_original _
                    (@JsonParser_adapter Sample.literal_json)
                    (Sample.config_of (JList [])) None
                    Fixture.disk_with_empty_original)))
     = @ConfigFile.restore_original _ (@JsonParser_adapter Sample.literal_json)
         (Sample.config_of (JList [])) None Fixture.disk_with_empty_original.
Proof.
  assert (Hsibling :
            Fixture.disk_with_empty_original !! "config.original.json"
            = Some "{}") by (vm_compute; reflexivity).
  assert (Hcurrent :
            Fixture.disk_with_empty_original !! "config.json" = Some "[]")
    by (vm_compute; reflexivity).
  split; [exact Hsibling|]. split; [exact Hcurrent|].
  exact (restore_original_twice Sample.literal_json
           (Sample.config_of (JList [])) Fixture.disk_with_empty_original
           "{}" "[]" Hsibling Hcurrent).
Defined.


(** X18. Through the facade, [has] never answers on the JSON adapter: for
    every parsed document, key and [wild] flag the call raises [TypeError],
    because the facade passes [wild] by keyword and the adapter's [has]
    accepts the key only. *)
Theorem facade_has_always_raises_on_json :
  forall (J : JsonModule) (self : ConfigFile.t JsonParser.t) (key : string)
         (wild : bool),
    exists msg, ConfigFile.has self key wild = Raise (TypeError msg).
Proof.
  intros J self key wild. unfold ConfigFile.has.
  cbn [adapter_has JsonParser_adapter]. unfold JsonParser_has_call.
  destruct (String.eqb "wild" "search_key"); eexists; reflexivity.
Qed.
